(** * Content_Generator_Bot: the script pipeline of [app.py]

    A shallow embedding of [app.py]: the Groq completion client
    ([call_groq_api]), the three pipeline nodes ([create_outline_node],
    [generate_script_node], [generate_hashtags_node]), the linear workflow
    that chains them, the formatter [generate_script] and the form
    submission handler.

    Python values are modelled as follows.
    - A [str] is a list of Unicode code points ([pystr]).
    - The state [ScriptState] is a [TypedDict], at run time a plain [dict]
      with string keys: a [gmap string pyval].  [state['k']] raises
      [KeyError] on an absent key, [state.get('k', d)] yields [d] there.
    - Exceptions and the network are explicit: a computation maps a world
      (the completion endpoint and the log of requests sent so far) to
      either a raised exception or a value, and the new world. *)

From Stdlib Require Import ZArith NArith QArith List String Ascii Lia.

From stdpp Require Import base option list strings pretty gmap fin_maps.

Set Warnings "-register-all".

Local Open Scope Z_scope.
Local Open Scope list_scope.

(** ** Python strings *)

Module PyStr.

(** A Python [str]: a sequence of code points. *)
Definition pystr : Type := list N.

(** A source literal that only has ASCII characters. *)
Definition lit (s : string) : pystr :=
  map N_of_ascii (list_ascii_of_string s).

Definition nl : pystr := [10%N].
Definition dquote : pystr := [34%N].
Definition squote : pystr := [39%N].

(** [str.isspace] of one code point (CPython's [_PyUnicode_IsWhitespace]). *)
Definition isspace (c : N) : bool :=
  ((9 <=? c) && (c <=? 13) || (28 <=? c) && (c <=? 32)
   || (c =? 133) || (c =? 160) || (c =? 5760)
   || (8192 <=? c) && (c <=? 8202)
   || (c =? 8232) || (c =? 8233) || (c =? 8239) || (c =? 8287)
   || (c =? 12288))%N.

Fixpoint lstrip (s : pystr) : pystr :=
  match s with
  | c :: s' => if isspace c then lstrip s' else s
  | [] => []
  end.

Definition rstrip (s : pystr) : pystr := rev (lstrip (rev s)).

(** [s.strip()] *)
Definition strip (s : pystr) : pystr := rstrip (lstrip s).

(** [str(n)] of an [int]. *)
Definition str_int (n : Z) : pystr := lit (pretty n).

(** [repr(s)] of a [str] that has no quote, backslash or control
    character in it, which is so of every key the program uses. *)
Definition repr_str (s : pystr) : pystr := squote ++ s ++ squote.

(** Truth value of a [str]: non-empty. *)
Definition nonempty (s : pystr) : bool :=
  match s with [] => false | _ :: _ => true end.

(** Whitespace only (or empty): what [not s.strip()] tests. *)
Definition blank (s : pystr) : bool := forallb isspace s.

(** [s] occurs in [t] as a contiguous run. *)
Definition contains (t s : pystr) : Prop :=
  exists pre post, t = pre ++ s ++ post.

End PyStr.
Export PyStr.

(** ** Values, exceptions and JSON documents *)

(** A value stored in the state dict: the form gives [str]s and one [int]. *)
Inductive pyval : Type :=
| VStr (s : pystr)
| VInt (n : Z).

(** [f"{v}"] *)
Definition fmt (v : pyval) : pystr :=
  match v with
  | VStr s => s
  | VInt n => str_int n
  end.

(** [bool(state.get(k))]: [None] (absent), [""] and [0] are false. *)
Definition truthy (v : option pyval) : bool :=
  match v with
  | None => false
  | Some (VStr s) => nonempty s
  | Some (VInt n) => negb (n =? 0)
  end.

(** A raised exception: its class and the text [str(e)] gives. *)
Record exn : Type := Exn { exn_class : string; str_exn : pystr }.

(** [str] of a [KeyError] is the [repr] of the missing key. *)
Definition KeyError (key_repr : pystr) : exn := Exn "KeyError" key_repr.
Definition IndexError (msg : string) : exn := Exn "IndexError" (lit msg).
Definition TypeError (msg : pystr) : exn := Exn "TypeError" msg.
Definition AttributeError (msg : pystr) : exn := Exn "AttributeError" msg.

(** What [response.json()] yields when the body parses. *)
Inductive json : Type :=
| JNull
| JBool (b : bool)
| JInt (n : Z)
| JFloat (repr : pystr)
| JStr (s : pystr)
| JArr (items : list json)
| JObj (members : list (pystr * json)).

Definition type_name (v : json) : string :=
  match v with
  | JNull => "NoneType"
  | JBool _ => "bool"
  | JInt _ => "int"
  | JFloat _ => "float"
  | JStr _ => "str"
  | JArr _ => "list"
  | JObj _ => "dict"
  end.

Fixpoint assoc (k : pystr) (kvs : list (pystr * json)) : option json :=
  match kvs with
  | [] => None
  | (k', v) :: rest => if decide (k = k') then Some v else assoc k rest
  end.

(** [v[key]] with a [str] key. *)
Definition getitem_key (v : json) (key : string) : exn + json :=
  match v with
  | JObj kvs =>
      match assoc (lit key) kvs with
      | Some x => inr x
      | None => inl (KeyError (repr_str (lit key)))
      end
  | JArr _ => inl (TypeError (lit "list indices must be integers or slices, not str"))
  | JStr _ => inl (TypeError (lit "string indices must be integers, not 'str'"))
  | _ => inl (TypeError (squote ++ lit (type_name v) ++ squote
                           ++ lit " object is not subscriptable"))
  end.

(** [v[0]] *)
Definition getitem_0 (v : json) : exn + json :=
  match v with
  | JArr (x :: _) => inr x
  | JArr [] => inl (IndexError "list index out of range")
  | JStr (c :: _) => inr (JStr [c])
  | JStr [] => inl (IndexError "string index out of range")
  | JObj _ => inl (KeyError (str_int 0))
  | _ => inl (TypeError (squote ++ lit (type_name v) ++ squote
                           ++ lit " object is not subscriptable"))
  end.

(** [v.strip()] *)
Definition strip_method (v : json) : exn + pystr :=
  match v with
  | JStr s => inr (strip s)
  | _ => inl (AttributeError (squote ++ lit (type_name v) ++ squote
                                ++ lit " object has no attribute 'strip'"))
  end.

(** ** The network *)

Record message : Type := Message { role : pystr; content : pystr }.

Record payload : Type := Payload {
  model : pystr;
  messages : list message;
  max_tokens : Z;
  temperature : Q
}.

Record request : Type := Request {
  url : pystr;
  headers : list (pystr * pystr);
  body : payload
}.

Record response : Type := Response {
  status_code : Z;
  text : pystr;
  (** [response.json()]: the parsed body, or the decoding error raised. *)
  json_of : exn + json
}.

(** What one [requests.post] does: raise (connection error, timeout)
    or hand back a response. *)
Inductive outcome : Type :=
| Raised (e : exn)
| Responded (r : response).

(** The world: the endpoint, which answers a request knowing the requests
    before it, and the log of the requests sent so far (oldest first). *)
Record world : Type := World {
  endpoint : list request -> request -> outcome;
  sent : list request
}.

(** ** Computations that may raise and may use the network *)

Definition M (A : Type) : Type := world -> (exn + A) * world.

#[export] Instance M_ret : MRet M := fun A (a : A) w => (inr a, w).

#[export] Instance M_bind : MBind M := fun A B (f : A -> M B) (m : M A) w =>
  match m w with
  | (inr a, w') => f a w'
  | (inl e, w') => (inl e, w')
  end.

#[export] Instance M_throw : MThrow exn M := fun A (e : exn) w => (inl e, w).

(** A pure computation that may raise. *)
Definition lift {A : Type} (r : exn + A) : M A := fun w => (r, w).

(** [try: m  except Exception as e: h e] *)
Definition try_except {A : Type} (m : M A) (h : exn -> M A) : M A := fun w =>
  match m w with
  | (inr a, w') => (inr a, w')
  | (inl e, w') => h e w'
  end.

(** [requests.post(url, headers=headers, json=data)] *)
Definition requests_post (u : pystr) (hs : list (pystr * pystr)) (data : payload)
  : M response := fun w =>
  let req := Request u hs data in
  let w' := World (endpoint w) (sent w ++ [req]) in
  match endpoint w (sent w) req with
  | Raised e => (inl e, w')
  | Responded r => (inr r, w')
  end.

(** ** [app.py] *)

Definition GROQ_API_URL : pystr :=
  lit "https://api.groq.com/openai/v1/chat/completions".

Section App.

(** [GROQ_API_KEY = os.getenv("GROQ_API_KEY")]: [None] when the variable
    is not set. *)
Variable GROQ_API_KEY : option pystr.

(** [f"{GROQ_API_KEY}"] *)
Definition fmt_key : pystr :=
  match GROQ_API_KEY with
  | Some k => k
  | None => lit "None"
  end.

(** The request [call_groq_api prompt] posts, put together. *)
Definition groq_request (prompt : pystr) : request :=
  Request GROQ_API_URL
    [ (lit "Authorization", lit "Bearer " ++ fmt_key);
      (lit "Content-Type", lit "application/json") ]
    (Payload (lit "llama3-70b-8192")
       [ Message (lit "system") (lit "You are a helpful assistant.");
         Message (lit "user") prompt ]
       1024 0.8).

Definition call_groq_api (prompt : pystr) : M pystr :=
  let headers := [ (lit "Authorization", lit "Bearer " ++ fmt_key);
                   (lit "Content-Type", lit "application/json") ] in
  let data := {|
    model := lit "llama3-70b-8192";
    messages := [ Message (lit "system") (lit "You are a helpful assistant.");
                  Message (lit "user") prompt ];
    max_tokens := 1024;
    temperature := 0.8
  |} in
  response ← requests_post GROQ_API_URL headers data;
  if status_code response =? 200 then
    doc ← lift (json_of response);
    choices ← lift (getitem_key doc "choices");
    choice ← lift (getitem_0 choices);
    msg ← lift (getitem_key choice "message");
    c ← lift (getitem_key msg "content");
    lift (strip_method c)
  else
    mret (lit "Error: " ++ str_int (status_code response) ++ lit " - "
          ++ text response).

(** *** The state dict *)

(** [state[k]] *)
Definition getitem (state : gmap string pyval) (k : string) : M pyval :=
  match state !! k with
  | Some v => mret v
  | None => mthrow (KeyError (repr_str (lit k)))
  end.

(** [state.get(k, d)] *)
Definition get (state : gmap string pyval) (k : string) (d : pyval) : pyval :=
  match state !! k with
  | Some v => v
  | None => d
  end.

(** *** The three prompts, as the f-strings lay them out *)

Definition outline_text (duration topic language tone platform : pyval) : pystr :=
  nl
  ++ lit "    Create a detailed outline for a " ++ fmt duration
  ++ lit "-second social media script about " ++ dquote ++ fmt topic ++ dquote
  ++ lit " in " ++ fmt language ++ lit "." ++ nl
  ++ lit "    Tone: " ++ fmt tone ++ nl
  ++ lit "    Platform: " ++ fmt platform ++ nl
  ++ lit "    " ++ nl
  ++ lit "    Provide a structured outline with:" ++ nl
  ++ lit "    1. Hook/Intro (first 5-10 seconds)" ++ nl
  ++ lit "    2. Main content points (middle section)" ++ nl
  ++ lit "    3. Call-to-action (last 5-10 seconds)" ++ nl
  ++ lit "    " ++ nl
  ++ lit "    Consider the platform's audience and format requirements." ++ nl
  ++ lit "    ".

Definition script_text (script_outline duration topic language tone platform
                        duration' : pyval) : pystr :=
  nl
  ++ lit "    Based on this outline: " ++ fmt script_outline ++ nl
  ++ lit "    " ++ nl
  ++ lit "    Write a complete " ++ fmt duration
  ++ lit "-second social media script about " ++ dquote ++ fmt topic ++ dquote
  ++ lit " in " ++ fmt language ++ lit "." ++ nl
  ++ lit "    Tone: " ++ fmt tone ++ nl
  ++ lit "    Platform: " ++ fmt platform ++ nl
  ++ lit "    " ++ nl
  ++ lit "    Make it engaging, conversational, and appropriate for the platform." ++ nl
  ++ lit "    Include timing cues and natural pauses." ++ nl
  ++ lit "    Ensure it fits within " ++ fmt duration'
  ++ lit " seconds when spoken at normal pace." ++ nl
  ++ lit "    ".

Definition hashtag_text (final_script platform_or_social topic platform
                         language : pyval) : pystr :=
  nl
  ++ lit "    Based on this script: " ++ fmt final_script ++ nl
  ++ lit "    " ++ nl
  ++ lit "    Generate:" ++ nl
  ++ lit "    1. 8-10 relevant hashtags for " ++ fmt platform_or_social ++ nl
  ++ lit "    2. A compelling caption/description" ++ nl
  ++ lit "    " ++ nl
  ++ lit "    Topic: " ++ fmt topic ++ nl
  ++ lit "    Platform: " ++ fmt platform ++ nl
  ++ lit "    Language: " ++ fmt language ++ nl
  ++ lit "    " ++ nl
  ++ lit "    Make hashtags trending and platform-appropriate." ++ nl
  ++ lit "    ".

(** The subscripts of an f-string are evaluated left to right; the first
    absent key raises. *)
Definition outline_prompt (state : gmap string pyval) : M pystr :=
  duration ← getitem state "duration";
  topic ← getitem state "topic";
  language ← getitem state "language";
  tone ← getitem state "tone";
  mret (outline_text duration topic language tone
          (get state "platform" (VStr (lit "Any")))).

Definition script_prompt (state : gmap string pyval) : M pystr :=
  script_outline ← getitem state "script_outline";
  duration ← getitem state "duration";
  topic ← getitem state "topic";
  language ← getitem state "language";
  tone ← getitem state "tone";
  duration' ← getitem state "duration";
  mret (script_text script_outline duration topic language tone
          (get state "platform" (VStr (lit "Any"))) duration').

Definition hashtag_prompt (state : gmap string pyval) : M pystr :=
  final_script ← getitem state "final_script";
  topic ← getitem state "topic";
  language ← getitem state "language";
  mret (hashtag_text final_script
          (get state "platform" (VStr (lit "social media"))) topic
          (get state "platform" (VStr (lit "Any"))) language).

(** *** The nodes *)

Definition create_outline_node (state : gmap string pyval)
  : M (gmap string pyval) :=
  prompt ← outline_prompt state;
  try_except
    (outline ← call_groq_api prompt;
     mret (<["script_outline" := VStr outline]> state))
    (fun e =>
       mret (<["error" := VStr (lit "Error creating outline: " ++ str_exn e)]> state)).

Definition generate_script_node (state : gmap string pyval)
  : M (gmap string pyval) :=
  if truthy (state !! "error") then mret state
  else
    prompt ← script_prompt state;
    try_except
      (script ← call_groq_api prompt;
       mret (<["final_script" := VStr script]> state))
      (fun e =>
         mret (<["error" := VStr (lit "Error generating script: " ++ str_exn e)]> state)).

Definition generate_hashtags_node (state : gmap string pyval)
  : M (gmap string pyval) :=
  if truthy (state !! "error") then mret state
  else
    prompt ← hashtag_prompt state;
    try_except
      (hashtags ← call_groq_api prompt;
       mret (<["hashtags" := VStr hashtags]> state))
      (fun e =>
         mret (<["error" := VStr (lit "Error generating hashtags: " ++ str_exn e)]> state)).

(** *** The workflow

    [create_script_workflow] compiles the linear graph
    create_outline -> generate_script -> generate_hashtags -> END;
    invoking it runs the three nodes in that order on the state, and an
    exception a node lets through ends the run. *)
Definition invoke (initial_state : gmap string pyval) : M (gmap string pyval) :=
  s1 ← create_outline_node initial_state;
  s2 ← generate_script_node s1;
  generate_hashtags_node s2.

Definition ScriptState (topic : pystr) (duration : Z)
    (tone platform language script_outline final_script hashtags error : pystr)
  : gmap string pyval :=
  <["topic" := VStr topic]> (
  <["duration" := VInt duration]> (
  <["tone" := VStr tone]> (
  <["platform" := VStr platform]> (
  <["language" := VStr language]> (
  <["script_outline" := VStr script_outline]> (
  <["final_script" := VStr final_script]> (
  <["hashtags" := VStr hashtags]> (
  <["error" := VStr error]> ∅)))))))).

Definition cross_mark : pystr := [10060%N].
Definition heading_outline : pystr :=
  lit "## " ++ [128221%N] ++ lit " Script Outline".
Definition heading_script : pystr :=
  lit "## " ++ [127916%N] ++ lit " Final Script".
Definition heading_hashtags : pystr :=
  lit "## " ++ [127991%N; 65039%N] ++ lit " Hashtags & Caption".

(** The response f-string of [generate_script]. *)
Definition response_text (script_outline final_script hashtags : pyval) : pystr :=
  nl
  ++ heading_outline ++ nl
  ++ fmt script_outline ++ nl
  ++ nl
  ++ heading_script ++ nl
  ++ fmt final_script ++ nl
  ++ nl
  ++ heading_hashtags ++ nl
  ++ fmt hashtags ++ nl
  ++ lit "        ".

Definition generate_script (topic : pystr) (duration : Z)
    (tone platform language : pystr) : M pystr :=
  let initial_state :=
    ScriptState topic duration tone platform language [] [] [] [] in
  try_except
    (result ← invoke initial_state;
     if truthy (result !! "error") then
       err ← getitem result "error";
       mret (cross_mark ++ lit " " ++ fmt err)
     else
       mret (strip (response_text
                      (get result "script_outline" (VStr (lit "No outline generated")))
                      (get result "final_script" (VStr (lit "No script generated")))
                      (get result "hashtags" (VStr (lit "No hashtags generated"))))))
    (fun e => mret (cross_mark ++ lit " Workflow error: " ++ str_exn e)).

(** *** The form *)

(** What the page shows after a submission. *)
Inductive ui_event : Type :=
| st_error (msg : pystr)
| st_spinner (msg : pystr)
| st_subheader (msg : pystr)
| st_markdown (md : pystr)
| st_success (msg : pystr).

(** The body of [if submitted:]. *)
Definition on_submit (topic : pystr) (duration : Z)
    (tone platform language : pystr) : M (list ui_event) :=
  if negb (nonempty (strip topic)) then
    mret [st_error (lit "Please enter a topic!")]
  else
    script ← generate_script topic duration tone platform language;
    mret [ st_spinner ([128260%N] ++ lit " Creating script outline...");
           st_subheader ([128203%N] ++ lit " Generated Content");
           st_markdown script;
           st_success ([9989%N]
                       ++ lit " Script generated! Copy and use it for your next post.") ].

End App.

(** ** Stub endpoints *)

(** A 200 response whose first choice has content [s]. *)
Definition completion (s : pystr) : response :=
  Response 200 (lit "{...}")
    (inr (JObj [ (lit "id", JStr (lit "chatcmpl-1"));
                 (lit "choices",
                  JArr [ JObj [ (lit "index", JInt 0);
                               (lit "message",
                                JObj [ (lit "role", JStr (lit "assistant"));
                                       (lit "content", JStr s) ]) ] ]) ])).

(** A non-200 response; its body is not looked at as JSON. *)
Definition failure (status : Z) (body : pystr) : response :=
  Response status body (inr JNull).

(** A transport fault. *)
Definition ConnectionError (msg : string) : exn := Exn "ConnectionError" (lit msg).

(** The endpoint that plays [script] one outcome per request and [dflt]
    after that; nothing sent yet. *)
Definition scripted (script : list outcome) (dflt : outcome) : world :=
  World (fun log _ => nth (length log) script dflt) [].

(** ** Vocabulary of the statements *)

(** [os.getenv(name)] in the environment [environ]. *)
Definition getenv (environ : gmap string pystr) (name : string) : option pystr :=
  environ !! name.

(** The text a non-200 response is turned into. *)
Definition sentinel (status : Z) (body : pystr) : pystr :=
  lit "Error: " ++ str_int status ++ lit " - " ++ body.

(** [c] is the content of the first completion choice of the body of [r]:
    [choices[0].message.content] is the string [c]. *)
Definition first_choice_content (r : response) (c : pystr) : Prop :=
  exists doc choice others msg,
    json_of r = inr (JObj doc)
    /\ assoc (lit "choices") doc = Some (JArr (JObj choice :: others))
    /\ assoc (lit "message") choice = Some (JObj msg)
    /\ assoc (lit "content") msg = Some (JStr c).

Definition bind_sum {A B : Type} (r : exn + A) (f : A -> exn + B) : exn + B :=
  match r with
  | inl e => inl e
  | inr a => f a
  end.

(** What a call makes of the outcome of its request. *)
Definition client_result (o : outcome) : exn + pystr :=
  match o with
  | Raised e => inl e
  | Responded r =>
      if status_code r =? 200 then
        bind_sum (json_of r) (fun doc =>
        bind_sum (getitem_key doc "choices") (fun choices =>
        bind_sum (getitem_0 choices) (fun choice =>
        bind_sum (getitem_key choice "message") (fun msg =>
        bind_sum (getitem_key msg "content") strip_method))))
      else inr (sentinel (status_code r) (text r))
  end.

(** The world after one more request. *)
Definition after (w : world) (req : request) : world :=
  World (endpoint w) (sent w ++ [req]).

(** The keys of a [ScriptState]. *)
Definition input_fields : list string :=
  ["topic"; "duration"; "tone"; "platform"; "language"].

Definition content_fields : list string :=
  ["script_outline"; "final_script"; "hashtags"].

Definition fields : list string := input_fields ++ content_fields ++ ["error"].

(** A dict that has every key of [ScriptState]. *)
Definition is_ScriptState (state : gmap string pyval) : Prop :=
  forall k, In k fields -> is_Some (state !! k).

(** The field [k] of [state] is the string [s]. *)
Definition field_is (state : gmap string pyval) (k : string) (s : pystr) : Prop :=
  state !! k = Some (VStr s).

(** The field [k] of [state] is the empty string. *)
Definition field_empty (state : gmap string pyval) (k : string) : Prop :=
  field_is state k [].

(** The field [k] of [state] is a non-empty string. *)
Definition field_populated (state : gmap string pyval) (k : string) : Prop :=
  exists s, field_is state k s /\ s <> [].

(** The state a pipeline run starts from. *)
Definition initial_state (topic : pystr) (duration : Z)
    (tone platform language : pystr) : gmap string pyval :=
  ScriptState topic duration tone platform language [] [] [] [].

(** The default of [state.get('platform', 'Any')]. *)
Definition Any : pyval := VStr (lit "Any").

(** The value under [k], for a state that has the key. *)
Definition val (state : gmap string pyval) (k : string) : pyval :=
  get state k (VStr []).

(** The prompts of the three steps on a state that has every key. *)
Definition prompt1 (state : gmap string pyval) : pystr :=
  outline_text (val state "duration") (val state "topic") (val state "language")
    (val state "tone") (get state "platform" Any).

Definition prompt2 (state : gmap string pyval) : pystr :=
  script_text (val state "script_outline") (val state "duration")
    (val state "topic") (val state "language") (val state "tone")
    (get state "platform" Any) (val state "duration").

Definition prompt3 (state : gmap string pyval) : pystr :=
  hashtag_text (val state "final_script")
    (get state "platform" (VStr (lit "social media"))) (val state "topic")
    (get state "platform" Any) (val state "language").

(** What the [try]/[except] of a node leaves in the state: the text in the
    node's own field when the call returned, the prefixed exception text in
    [error] when it raised. *)
Definition settle (field prefix : string) (state : gmap string pyval)
    (r : exn + pystr) : gmap string pyval :=
  match r with
  | inr s => <[field := VStr s]> state
  | inl e => <["error" := VStr (lit prefix ++ str_exn e)]> state
  end.

(** [m], started in [w], returns [a] and leaves the world [w']. *)
Definition returns {A : Type} (m : M A) (w : world) (a : A) (w' : world) : Prop :=
  m w = (inr a, w').

(** [m], started in [w], raises [e] and leaves the world [w']. *)
Definition raises {A : Type} (m : M A) (w : world) (e : exn) (w' : world) : Prop :=
  m w = (inl e, w').

(** The state with one more field written, as a node leaves it. *)
Definition with_outline (state : gmap string pyval) (t : pystr) : gmap string pyval :=
  <["script_outline" := VStr t]> state.

Definition with_script (state : gmap string pyval) (t : pystr) : gmap string pyval :=
  <["final_script" := VStr t]> state.

Definition with_hashtags (state : gmap string pyval) (t : pystr) : gmap string pyval :=
  <["hashtags" := VStr t]> state.

Definition with_error (state : gmap string pyval) (prefix : string) (e : exn)
  : gmap string pyval :=
  <["error" := VStr (lit prefix ++ str_exn e)]> state.

(** The three steps: own content field, error prefix, prompt builder, node,
    and whether the node first tests [state.get("error")]. *)
Record step : Type := Step {
  own_field : string;
  error_prefix : string;
  build_prompt : gmap string pyval -> M pystr;
  run_node : gmap string pyval -> M (gmap string pyval);
  tests_error : bool
}.

Definition step_outline (key : option pystr) : step :=
  Step "script_outline" "Error creating outline: " outline_prompt
       (create_outline_node key) false.

Definition step_script (key : option pystr) : step :=
  Step "final_script" "Error generating script: " script_prompt
       (generate_script_node key) true.

Definition step_hashtags (key : option pystr) : step :=
  Step "hashtags" "Error generating hashtags: " hashtag_prompt
       (generate_hashtags_node key) true.

Definition steps (key : option pystr) : list step :=
  [step_outline key; step_script key; step_hashtags key].

(** The node handed the state back without a call. *)
Definition skipped (node : gmap string pyval -> M (gmap string pyval))
    (state : gmap string pyval) (w : world) : Prop :=
  node state w = (inr state, w).

(** ** Sample worlds and states *)

Definition world_ok : world :=
  scripted [Responded (completion (lit "  Hello there ")) ] (Raised (ConnectionError "down")).

Definition world_busy : world :=
  scripted [Responded (failure 503 (lit "busy"))] (Raised (ConnectionError "down")).

Definition cats : gmap string pyval :=
  initial_state (lit "cats") 60 (lit "Friendly") (lit "TikTok") (lit "English").

Definition world_down : world :=
  scripted [] (Raised (ConnectionError "connection refused")).

(** The first call answers "OUTLINE", the second does not get through. *)
Definition world_fault2 : world :=
  scripted [Responded (completion (lit "OUTLINE"))]
           (Raised (ConnectionError "connection refused")).

(** Every call is answered with an empty completion. *)
Definition world_silent : world :=
  scripted [] (Responded (completion [])).

(** The stub that answers "OUTLINE", "SCRIPT", "TAGS" in turn. *)
Definition world_stub : world :=
  scripted [ Responded (completion (lit "OUTLINE"));
             Responded (completion (lit "SCRIPT"));
             Responded (completion (lit "TAGS")) ]
           (Raised (ConnectionError "no more answers")).

(** The first call gets a 500, the later ones are answered. *)
Definition world_500 : world :=
  scripted [ Responded (failure 500 (lit "Internal Server Error")) ]
           (Responded (completion (lit "fine"))).

(** The form left at its defaults but for the topic: no platform chosen. *)
Definition no_platform : gmap string pyval :=
  initial_state (lit "cats") 60 (lit "Friendly") [] (lit "English").

(** ** Readings of the completion state *)

(** All three content fields populated and no error. *)
Definition completed_ok (state : gmap string pyval) : Prop :=
  field_populated state "script_outline"
  /\ field_populated state "final_script"
  /\ field_populated state "hashtags"
  /\ field_empty state "error".

(** An error recorded (whichever content fields are empty). *)
Definition completed_failed (state : gmap string pyval) : Prop :=
  field_populated state "error".

(** Of the content fields, hashtags alone is empty. *)
Definition only_hashtags_empty (state : gmap string pyval) : Prop :=
  field_empty state "hashtags"
  /\ field_populated state "script_outline"
  /\ field_populated state "final_script".

(** ** Rendering *)

Definition error_line (err : pystr) : pystr := cross_mark ++ lit " " ++ err.

(** The three fields under their headings. *)
Definition sections (outline script hashtags : pystr) : pystr :=
  heading_outline ++ nl ++ outline ++ nl ++ nl
  ++ heading_script ++ nl ++ script ++ nl ++ nl
  ++ heading_hashtags ++ nl ++ hashtags.

(** The same, as [response.strip()] leaves the end of the text. *)
Definition sections_stripped (outline script hashtags : pystr) : pystr :=
  heading_outline ++ nl ++ outline ++ nl ++ nl
  ++ heading_script ++ nl ++ script ++ nl ++ nl
  ++ heading_hashtags ++ rstrip (nl ++ hashtags ++ nl ++ lit "        ").

(** The final states of two sample runs. *)
Definition fault2_final : gmap string pyval :=
  with_error (with_outline cats (lit "OUTLINE")) "Error generating script: "
    (ConnectionError "connection refused").

Definition silent_final : gmap string pyval :=
  with_hashtags (with_script (with_outline cats []) []) [].

(** ** Vocabulary of the further properties *)

(** Every key of [ScriptState] but [platform], the one key the nodes read
    with [state.get]. *)
Definition has_required (state : gmap string pyval) : Prop :=
  forall k, In k fields -> k <> "platform"%string -> is_Some (state !! k).

(** The endpoint answers every request, and never with status 200. *)
Definition always_refused (w : world) : Prop :=
  forall log req, exists r,
    endpoint w log req = Responded r /\ status_code r <> 200.

(** A request as [call_groq_api] builds them, whatever the prompt. *)
Definition groq_shaped (key : option pystr) (req : request) : Prop :=
  exists prompt,
    url req = GROQ_API_URL
    /\ headers req = [ (lit "Authorization", lit "Bearer " ++ fmt_key key);
                       (lit "Content-Type", lit "application/json") ]
    /\ model (body req) = lit "llama3-70b-8192"
    /\ messages (body req)
       = [ Message (lit "system") (lit "You are a helpful assistant.");
           Message (lit "user") prompt ]
    /\ max_tokens (body req) = 1024.

(** The three prompts of a run, from the values of the form and the texts
    of the earlier steps. *)
Definition run_prompt1 (topic : pystr) (duration : Z)
    (tone platform language : pystr) : pystr :=
  outline_text (VInt duration) (VStr topic) (VStr language) (VStr tone)
    (VStr platform).

Definition run_prompt2 (topic : pystr) (duration : Z)
    (tone platform language outline : pystr) : pystr :=
  script_text (VStr outline) (VInt duration) (VStr topic) (VStr language)
    (VStr tone) (VStr platform) (VInt duration).

Definition run_prompt3 (topic platform language script : pystr) : pystr :=
  hashtag_text (VStr script) (VStr platform) (VStr topic) (VStr platform)
    (VStr language).

(** Every request is refused with a 401. *)
Definition world_denied : world :=
  scripted [] (Responded (failure 401 (lit "Unauthorized"))).

(** A 200 response whose body is the empty JSON object. *)
Definition no_choices : response := Response 200 (lit "{}") (inr (JObj [])).

Definition world_no_choices : world := scripted [] (Responded no_choices).

(** A state that came without the platform key. *)
Definition cats_no_platform_key : gmap string pyval := delete "platform" cats.

(** A state that came without the topic key. *)
Definition cats_no_topic_key : gmap string pyval := delete "topic" cats.


(** * Properties *)

Example str_int_60 : str_int 60 = lit "60".
Proof. reflexivity. Qed.

Example str_int_neg : str_int (-5) = lit "-5".
Proof. reflexivity. Qed.

Example strip_both_ends : strip (lit "  a b  " ++ nl) = lit "a b".
Proof. reflexivity. Qed.

#[global] Arguments lit : simpl never.
#[global] Arguments str_int : simpl never.

(** ** Stripping *)

Lemma lstrip_blank s : blank s = true -> lstrip s = [].
Proof.
  induction s as [|c s IH]; simpl; [reflexivity|].
  intros H. apply andb_true_iff in H as [Hc Hs]. rewrite Hc. auto.
Qed.

Lemma lstrip_nil_blank s : lstrip s = [] -> blank s = true.
Proof.
  induction s as [|c s IH]; simpl; [reflexivity|].
  destruct (isspace c); simpl; [exact IH | discriminate].
Qed.

Lemma strip_blank s : blank s = true -> strip s = [].
Proof. intros H. unfold strip. rewrite lstrip_blank by exact H. reflexivity. Qed.

(** A non-space character stops [lstrip]. *)
Lemma lstrip_stop u c v :
  isspace c = false -> lstrip (u ++ c :: v) = lstrip u ++ c :: v.
Proof.
  intros Hc. induction u as [|x u IH]; simpl.
  - rewrite Hc. reflexivity.
  - destruct (isspace x); [exact IH | reflexivity].
Qed.

Lemma rstrip_stop u c v :
  isspace c = false -> rstrip (u ++ c :: v) = u ++ c :: rstrip v.
Proof.
  intros Hc. unfold rstrip.
  rewrite rev_app_distr. simpl. rewrite <- app_assoc. simpl.
  rewrite lstrip_stop by exact Hc.
  rewrite rev_app_distr. simpl. rewrite rev_involutive, <- app_assoc.
  reflexivity.
Qed.

Lemma lstrip_suffix s : exists u, s = u ++ lstrip s /\ blank u = true.
Proof.
  induction s as [|c s [u [Hu Hb]]]; simpl.
  - exists []. auto.
  - destruct (isspace c) eqn:Hc.
    + exists (c :: u). simpl. rewrite Hc, Hb. split; [congruence | reflexivity].
    + exists []. auto.
Qed.

Lemma blank_app u v : blank (u ++ v) = blank u && blank v.
Proof. unfold blank. apply forallb_app. Qed.

Lemma blank_rev u : blank (rev u) = blank u.
Proof.
  induction u as [|c u IH]; simpl; [reflexivity|].
  rewrite blank_app, IH. simpl. rewrite andb_true_r. apply andb_comm.
Qed.

(** [not topic.strip()] holds exactly of the blank strings. *)
Lemma strip_nil_iff s : strip s = [] <-> blank s = true.
Proof.
  split; [|apply strip_blank].
  unfold strip, rstrip. intros H.
  destruct (lstrip_suffix s) as [u [Hs Hu]].
  assert (Hl : lstrip (rev (lstrip s)) = []).
  { apply (f_equal (@rev N)) in H. rewrite rev_involutive in H. exact H. }
  apply lstrip_nil_blank in Hl. rewrite blank_rev in Hl.
  rewrite Hs, blank_app, Hu, Hl. reflexivity.
Qed.

(** ** Running computations *)

Lemma bind_run {A B : Type} (m : M A) (f : A -> M B) (w : world) :
  (m ≫= f) w = match m w with
               | (inr a, w') => f a w'
               | (inl e, w') => (inl e, w')
               end.
Proof. reflexivity. Qed.

Lemma getitem_run (state : gmap string pyval) (k : string) (v : pyval) (w : world) :
  state !! k = Some v -> getitem state k w = (inr v, w).
Proof. intros H. unfold getitem. rewrite H. reflexivity. Qed.

Section Client.

Variable key : option pystr.

(** One call posts one request, and its result is read off the outcome. *)
Lemma call_groq_api_run (prompt : pystr) (w : world) :
  call_groq_api key prompt w =
    (client_result (endpoint w (sent w) (groq_request key prompt)),
     after w (groq_request key prompt)).
Proof.
  unfold call_groq_api, client_result, after, requests_post, groq_request.
  unfold mbind, M_bind, lift, bind_sum.
  destruct (endpoint w (sent w) _) as [e|r]; [reflexivity|].
  destruct (status_code r =? 200); [|reflexivity].
  destruct (json_of r) as [e|doc]; [reflexivity|].
  destruct (getitem_key doc "choices") as [e|choices]; [reflexivity|].
  destruct (getitem_0 choices) as [e|choice]; [reflexivity|].
  destruct (getitem_key choice "message") as [e|msg]; [reflexivity|].
  destruct (getitem_key msg "content") as [e|c]; reflexivity.
Qed.

End Client.

(** ** The nodes on a state that has every key *)

Lemma val_lookup (state : gmap string pyval) (k : string) (v : pyval) :
  state !! k = Some v -> val state k = v.
Proof. intros H. unfold val, get. rewrite H. reflexivity. Qed.

Lemma getitem_val (state : gmap string pyval) (k : string) (w : world) :
  is_ScriptState state -> In k fields ->
  getitem state k w = (inr (val state k), w).
Proof.
  intros H Hin. destruct (H k Hin) as [v Hv].
  rewrite (val_lookup _ _ _ Hv). apply getitem_run, Hv.
Qed.

Ltac step_getitem H :=
  rewrite bind_run, (getitem_val _ _ _ H) by (vm_compute; tauto).

Lemma outline_prompt_run (state : gmap string pyval) (w : world) :
  is_ScriptState state -> outline_prompt state w = (inr (prompt1 state), w).
Proof.
  intros H. unfold outline_prompt. do 4 step_getitem H. reflexivity.
Qed.

Lemma script_prompt_run (state : gmap string pyval) (w : world) :
  is_ScriptState state -> script_prompt state w = (inr (prompt2 state), w).
Proof.
  intros H. unfold script_prompt. do 6 step_getitem H. reflexivity.
Qed.

Lemma hashtag_prompt_run (state : gmap string pyval) (w : world) :
  is_ScriptState state -> hashtag_prompt state w = (inr (prompt3 state), w).
Proof.
  intros H. unfold hashtag_prompt. do 3 step_getitem H. reflexivity.
Qed.

(** Building a prompt does not touch the network. *)
Lemma outline_prompt_world (state : gmap string pyval) (w : world) :
  snd (outline_prompt state w) = w.
Proof.
  unfold outline_prompt, getitem, mbind, M_bind, mret, M_ret, mthrow, M_throw.
  repeat (match goal with |- context [match ?m !! ?k with _ => _ end] =>
            destruct (m !! k) end); reflexivity.
Qed.

Lemma script_prompt_world (state : gmap string pyval) (w : world) :
  snd (script_prompt state w) = w.
Proof.
  unfold script_prompt, getitem, mbind, M_bind, mret, M_ret, mthrow, M_throw.
  repeat (match goal with |- context [match ?m !! ?k with _ => _ end] =>
            destruct (m !! k) end); reflexivity.
Qed.

Lemma hashtag_prompt_world (state : gmap string pyval) (w : world) :
  snd (hashtag_prompt state w) = w.
Proof.
  unfold hashtag_prompt, getitem, mbind, M_bind, mret, M_ret, mthrow, M_throw.
  repeat (match goal with |- context [match ?m !! ?k with _ => _ end] =>
            destruct (m !! k) end); reflexivity.
Qed.

Section Nodes.

Variable key : option pystr.

(** The [try]/[except] block of a node: one call, never an exception. *)
Lemma try_call_run (field prefix : string) (state : gmap string pyval)
    (prompt : pystr) (w : world) :
  try_except
    (s ← call_groq_api key prompt; mret (<[field := VStr s]> state))
    (fun e => mret (<["error" := VStr (lit prefix ++ str_exn e)]> state)) w
  = (inr (settle field prefix state
            (client_result (endpoint w (sent w) (groq_request key prompt)))),
     after w (groq_request key prompt)).
Proof.
  unfold try_except. rewrite bind_run, call_groq_api_run.
  destruct (client_result _); reflexivity.
Qed.

Lemma create_outline_node_run (state : gmap string pyval) (w : world) :
  is_ScriptState state ->
  create_outline_node key state w =
    (inr (settle "script_outline" "Error creating outline: " state
            (client_result (endpoint w (sent w) (groq_request key (prompt1 state))))),
     after w (groq_request key (prompt1 state))).
Proof.
  intros H. unfold create_outline_node.
  rewrite bind_run, outline_prompt_run by exact H. apply try_call_run.
Qed.

Lemma generate_script_node_run (state : gmap string pyval) (w : world) :
  is_ScriptState state -> truthy (state !! "error") = false ->
  generate_script_node key state w =
    (inr (settle "final_script" "Error generating script: " state
            (client_result (endpoint w (sent w) (groq_request key (prompt2 state))))),
     after w (groq_request key (prompt2 state))).
Proof.
  intros H He. unfold generate_script_node. rewrite He.
  rewrite bind_run, script_prompt_run by exact H. apply try_call_run.
Qed.

Lemma generate_hashtags_node_run (state : gmap string pyval) (w : world) :
  is_ScriptState state -> truthy (state !! "error") = false ->
  generate_hashtags_node key state w =
    (inr (settle "hashtags" "Error generating hashtags: " state
            (client_result (endpoint w (sent w) (groq_request key (prompt3 state))))),
     after w (groq_request key (prompt3 state))).
Proof.
  intros H He. unfold generate_hashtags_node. rewrite He.
  rewrite bind_run, hashtag_prompt_run by exact H. apply try_call_run.
Qed.

(** Once [error] is set, the later two nodes hand the state back. *)
Lemma generate_script_node_skip (state : gmap string pyval) (w : world) :
  truthy (state !! "error") = true ->
  generate_script_node key state w = (inr state, w).
Proof. intros He. unfold generate_script_node. rewrite He. reflexivity. Qed.

Lemma generate_hashtags_node_skip (state : gmap string pyval) (w : world) :
  truthy (state !! "error") = true ->
  generate_hashtags_node key state w = (inr state, w).
Proof. intros He. unfold generate_hashtags_node. rewrite He. reflexivity. Qed.

End Nodes.

(** ** What [settle] changes *)

Lemma settle_other (field prefix : string) (state : gmap string pyval)
    (r : exn + pystr) (k : string) :
  k <> field -> k <> "error"%string -> settle field prefix state r !! k = state !! k.
Proof.
  intros Hf He. destruct r; simpl; apply lookup_insert_ne; congruence.
Qed.

Lemma settle_error_raised (field prefix : string) (state : gmap string pyval)
    (e : exn) :
  settle field prefix state (inl e) !! "error"
    = Some (VStr (lit prefix ++ str_exn e)).
Proof. simpl. apply lookup_insert_eq. Qed.

(** ** Runs of the workflow *)

Lemma prefixed_nonempty (prefix : string) (t : pystr) :
  prefix <> ""%string -> nonempty (lit prefix ++ t) = true.
Proof. destruct prefix; [congruence | reflexivity]. Qed.

Lemma with_error_truthy (state : gmap string pyval) (prefix : string) (e : exn) :
  prefix <> ""%string -> truthy (with_error state prefix e !! "error") = true.
Proof.
  intros H. unfold with_error. rewrite lookup_insert_eq. simpl.
  apply prefixed_nonempty, H.
Qed.

Lemma insert_is_ScriptState (state : gmap string pyval) (k : string) (v : pyval) :
  is_ScriptState state -> is_ScriptState (<[k := v]> state).
Proof.
  intros H k' Hk'. rewrite lookup_insert. case_decide; eauto.
Qed.

Section Runs.

Variable key : option pystr.

Lemma call_returns (prompt : pystr) (w : world) (t : pystr) (w' : world) :
  returns (call_groq_api key prompt) w t w' ->
  client_result (endpoint w (sent w) (groq_request key prompt)) = inr t
  /\ w' = after w (groq_request key prompt).
Proof.
  unfold returns. rewrite call_groq_api_run. intros H.
  injection H as H1 H2. auto.
Qed.

Lemma call_raises (prompt : pystr) (w : world) (e : exn) (w' : world) :
  raises (call_groq_api key prompt) w e w' ->
  client_result (endpoint w (sent w) (groq_request key prompt)) = inl e
  /\ w' = after w (groq_request key prompt).
Proof.
  unfold raises. rewrite call_groq_api_run. intros H.
  injection H as H1 H2. auto.
Qed.

(** A call either returns or raises. *)
Lemma call_total (prompt : pystr) (w : world) :
  (exists t, returns (call_groq_api key prompt) w t (after w (groq_request key prompt)))
  \/ (exists e, raises (call_groq_api key prompt) w e (after w (groq_request key prompt))).
Proof.
  unfold returns, raises. rewrite call_groq_api_run.
  destruct (client_result _) as [e|t]; eauto.
Qed.

Lemma outline_returned (state : gmap string pyval) (w : world) (t : pystr) (w1 : world) :
  is_ScriptState state ->
  returns (call_groq_api key (prompt1 state)) w t w1 ->
  create_outline_node key state w = (inr (with_outline state t), w1).
Proof.
  intros H Hc. apply call_returns in Hc as [Hr ->].
  rewrite create_outline_node_run, Hr by exact H. reflexivity.
Qed.

Lemma outline_raised (state : gmap string pyval) (w : world) (e : exn) (w1 : world) :
  is_ScriptState state ->
  raises (call_groq_api key (prompt1 state)) w e w1 ->
  create_outline_node key state w
    = (inr (with_error state "Error creating outline: " e), w1).
Proof.
  intros H Hc. apply call_raises in Hc as [Hr ->].
  rewrite create_outline_node_run, Hr by exact H. reflexivity.
Qed.

Lemma script_returned (state : gmap string pyval) (w : world) (t : pystr) (w1 : world) :
  is_ScriptState state -> truthy (state !! "error") = false ->
  returns (call_groq_api key (prompt2 state)) w t w1 ->
  generate_script_node key state w = (inr (with_script state t), w1).
Proof.
  intros H He Hc. apply call_returns in Hc as [Hr ->].
  rewrite generate_script_node_run, Hr by assumption. reflexivity.
Qed.

Lemma script_raised (state : gmap string pyval) (w : world) (e : exn) (w1 : world) :
  is_ScriptState state -> truthy (state !! "error") = false ->
  raises (call_groq_api key (prompt2 state)) w e w1 ->
  generate_script_node key state w
    = (inr (with_error state "Error generating script: " e), w1).
Proof.
  intros H He Hc. apply call_raises in Hc as [Hr ->].
  rewrite generate_script_node_run, Hr by assumption. reflexivity.
Qed.

Lemma hashtags_returned (state : gmap string pyval) (w : world) (t : pystr) (w1 : world) :
  is_ScriptState state -> truthy (state !! "error") = false ->
  returns (call_groq_api key (prompt3 state)) w t w1 ->
  generate_hashtags_node key state w = (inr (with_hashtags state t), w1).
Proof.
  intros H He Hc. apply call_returns in Hc as [Hr ->].
  rewrite generate_hashtags_node_run, Hr by assumption. reflexivity.
Qed.

Lemma hashtags_raised (state : gmap string pyval) (w : world) (e : exn) (w1 : world) :
  is_ScriptState state -> truthy (state !! "error") = false ->
  raises (call_groq_api key (prompt3 state)) w e w1 ->
  generate_hashtags_node key state w
    = (inr (with_error state "Error generating hashtags: " e), w1).
Proof.
  intros H He Hc. apply call_raises in Hc as [Hr ->].
  rewrite generate_hashtags_node_run, Hr by assumption. reflexivity.
Qed.

(** The four ways a run from a state with no error can go. *)
Lemma invoke_fault1 (state : gmap string pyval) (w : world) (e : exn) (w1 : world) :
  is_ScriptState state ->
  raises (call_groq_api key (prompt1 state)) w e w1 ->
  invoke key state w = (inr (with_error state "Error creating outline: " e), w1).
Proof.
  intros H H1. unfold invoke.
  rewrite bind_run, (outline_raised _ _ _ _ H H1).
  rewrite bind_run, generate_script_node_skip by (apply with_error_truthy; discriminate).
  apply generate_hashtags_node_skip, with_error_truthy. discriminate.
Qed.

Lemma with_outline_error (state : gmap string pyval) (t : pystr) :
  with_outline state t !! "error" = state !! "error".
Proof. apply lookup_insert_ne. discriminate. Qed.

Lemma with_script_error (state : gmap string pyval) (t : pystr) :
  with_script state t !! "error" = state !! "error".
Proof. apply lookup_insert_ne. discriminate. Qed.

Lemma invoke_fault2 (state : gmap string pyval) (w : world) (t1 : pystr)
    (w1 : world) (e : exn) (w2 : world) :
  is_ScriptState state -> truthy (state !! "error") = false ->
  returns (call_groq_api key (prompt1 state)) w t1 w1 ->
  raises (call_groq_api key (prompt2 (with_outline state t1))) w1 e w2 ->
  invoke key state w
    = (inr (with_error (with_outline state t1) "Error generating script: " e), w2).
Proof.
  intros H He H1 H2. unfold invoke.
  rewrite bind_run, (outline_returned _ _ _ _ H H1).
  assert (Hs1 : is_ScriptState (with_outline state t1))
    by apply insert_is_ScriptState, H.
  assert (He1 : truthy (with_outline state t1 !! "error") = false)
    by (rewrite with_outline_error; exact He).
  rewrite bind_run, (script_raised (with_outline state t1) _ _ _ Hs1 He1 H2).
  apply generate_hashtags_node_skip, with_error_truthy. discriminate.
Qed.

Lemma invoke_fault3 (state : gmap string pyval) (w : world) (t1 : pystr)
    (w1 : world) (t2 : pystr) (w2 : world) (e : exn) (w3 : world) :
  is_ScriptState state -> truthy (state !! "error") = false ->
  returns (call_groq_api key (prompt1 state)) w t1 w1 ->
  returns (call_groq_api key (prompt2 (with_outline state t1))) w1 t2 w2 ->
  raises (call_groq_api key (prompt3 (with_script (with_outline state t1) t2))) w2 e w3 ->
  invoke key state w
    = (inr (with_error (with_script (with_outline state t1) t2)
              "Error generating hashtags: " e), w3).
Proof.
  intros H He H1 H2 H3. unfold invoke.
  assert (Hs1 : is_ScriptState (with_outline state t1))
    by apply insert_is_ScriptState, H.
  assert (He1 : truthy (with_outline state t1 !! "error") = false)
    by (rewrite with_outline_error; exact He).
  rewrite bind_run, (outline_returned _ _ _ _ H H1).
  rewrite bind_run, (script_returned (with_outline state t1) _ _ _ Hs1 He1 H2).
  apply hashtags_raised; [apply insert_is_ScriptState, Hs1 | | exact H3].
  rewrite with_script_error. exact He1.
Qed.

Lemma invoke_ok (state : gmap string pyval) (w : world) (t1 : pystr)
    (w1 : world) (t2 : pystr) (w2 : world) (t3 : pystr) (w3 : world) :
  is_ScriptState state -> truthy (state !! "error") = false ->
  returns (call_groq_api key (prompt1 state)) w t1 w1 ->
  returns (call_groq_api key (prompt2 (with_outline state t1))) w1 t2 w2 ->
  returns (call_groq_api key (prompt3 (with_script (with_outline state t1) t2))) w2 t3 w3 ->
  invoke key state w
    = (inr (with_hashtags (with_script (with_outline state t1) t2) t3), w3).
Proof.
  intros H He H1 H2 H3. unfold invoke.
  assert (Hs1 : is_ScriptState (with_outline state t1))
    by apply insert_is_ScriptState, H.
  assert (He1 : truthy (with_outline state t1 !! "error") = false)
    by (rewrite with_outline_error; exact He).
  rewrite bind_run, (outline_returned _ _ _ _ H H1).
  rewrite bind_run, (script_returned (with_outline state t1) _ _ _ Hs1 He1 H2).
  apply hashtags_returned; [apply insert_is_ScriptState, Hs1 | | exact H3].
  rewrite with_script_error. exact He1.
Qed.

End Runs.

(** ** The initial state *)

Lemma initial_is_ScriptState (topic : pystr) (duration : Z)
    (tone platform language : pystr) :
  is_ScriptState (initial_state topic duration tone platform language).
Proof.
  intros k Hk. vm_compute in Hk.
  repeat (destruct Hk as [<-|Hk]; [eexists; reflexivity|]). destruct Hk.
Qed.

Lemma initial_no_error (topic : pystr) (duration : Z)
    (tone platform language : pystr) :
  truthy (initial_state topic duration tone platform language !! "error") = false.
Proof. reflexivity. Qed.

(** ** The nodes on any dict *)

Section AnyState.

Variable key : option pystr.

(** A node that tests [error] and finds it set is skipped; otherwise it
    builds its prompt, and then either lets the [KeyError] through or
    makes its call and settles. *)
Lemma node_cases (s : step) (state : gmap string pyval) (w : world) :
  In s (steps key) ->
  (tests_error s = true /\ truthy (state !! "error") = true
   /\ run_node s state w = (inr state, w))
  \/ (exists e, build_prompt s state w = (inl e, w)
                /\ (tests_error s = true -> truthy (state !! "error") = false)
                /\ run_node s state w = (inl e, w))
  \/ (exists p, build_prompt s state w = (inr p, w)
                /\ (tests_error s = true -> truthy (state !! "error") = false)
                /\ run_node s state w =
                     (inr (settle (own_field s) (error_prefix s) state
                             (client_result (endpoint w (sent w) (groq_request key p)))),
                      after w (groq_request key p))).
Proof.
  intros [<-|[<-|[<-|[]]]]; simpl.
  - right.
    pose proof (outline_prompt_world state w) as Hw.
    unfold create_outline_node. rewrite bind_run.
    destruct (outline_prompt state w) as [[e|p] w0]; simpl in Hw; subst w0.
    + left. exists e. by repeat split.
    + right. exists p. rewrite try_call_run. by repeat split.
  - unfold generate_script_node.
    destruct (truthy (state !! "error")) eqn:He; [left; auto|]. right.
    pose proof (script_prompt_world state w) as Hw. rewrite bind_run.
    destruct (script_prompt state w) as [[e|p] w0]; simpl in Hw; subst w0.
    + left. exists e. by repeat split.
    + right. exists p. rewrite try_call_run. by repeat split.
  - unfold generate_hashtags_node.
    destruct (truthy (state !! "error")) eqn:He; [left; auto|]. right.
    pose proof (hashtag_prompt_world state w) as Hw. rewrite bind_run.
    destruct (hashtag_prompt state w) as [[e|p] w0]; simpl in Hw; subst w0.
    + left. exists e. by repeat split.
    + right. exists p. rewrite try_call_run. by repeat split.
Qed.

(** On a state with every key the prompt is built. *)
Lemma build_prompt_total (s : step) (state : gmap string pyval) (w : world) :
  In s (steps key) -> is_ScriptState state ->
  exists p, build_prompt s state w = (inr p, w).
Proof.
  intros [<-|[<-|[<-|[]]]] H; simpl; eexists.
  - apply outline_prompt_run, H.
  - apply script_prompt_run, H.
  - apply hashtag_prompt_run, H.
Qed.

Lemma own_field_not_error (s : step) :
  In s (steps key) -> own_field s <> "error"%string.
Proof. intros [<-|[<-|[<-|[]]]]; discriminate. Qed.

End AnyState.

(** ** The completion client *)

(** C2: a 200 response makes [call_groq_api] return the trimmed content of
    the first completion choice, any other status makes it return the text
    "Error: <status> - <body>"; both come back as the returned string of
    the call, nothing is raised. *)
Theorem call_groq_api_result (key : option pystr) (prompt : pystr) (w : world)
    (r : response) :
  endpoint w (sent w) (groq_request key prompt) = Responded r ->
  (status_code r = 200 -> forall c, first_choice_content r c ->
     returns (call_groq_api key prompt) w (strip c)
       (after w (groq_request key prompt)))
  /\ (status_code r <> 200 ->
     returns (call_groq_api key prompt) w (sentinel (status_code r) (text r))
       (after w (groq_request key prompt))).
Proof.
  intros Hr. unfold returns. rewrite call_groq_api_run, Hr.
  unfold client_result. split.
  - intros H200 c (doc & choice & others & msg & Hj & Hc & Hm & Hs).
    rewrite H200, Hj. cbn [Z.eqb Pos.eqb bind_sum].
    unfold getitem_key at 1. rewrite Hc. cbn [bind_sum getitem_0].
    unfold getitem_key at 1. rewrite Hm. cbn [bind_sum].
    unfold getitem_key. rewrite Hs. reflexivity.
  - intros Hn. apply Z.eqb_neq in Hn. rewrite Hn. reflexivity.
Qed.

Lemma call_groq_api_result_witness :
  returns (call_groq_api None (lit "hi")) world_ok (lit "Hello there")
    (after world_ok (groq_request None (lit "hi")))
  /\ returns (call_groq_api None (lit "hi")) world_busy (lit "Error: 503 - busy")
    (after world_busy (groq_request None (lit "hi"))).
Proof.
  split.
  - apply (proj1 (call_groq_api_result None (lit "hi") world_ok
                    (completion (lit "  Hello there ")) eq_refl) eq_refl
                 (lit "  Hello there ")).
    repeat eexists; reflexivity.
  - apply (proj2 (call_groq_api_result None (lit "hi") world_busy
                    (failure 503 (lit "busy")) eq_refl)).
    discriminate.
Defined.

(** ** Frame and failure behaviour of the steps *)

Lemma input_not_written (key : option pystr) (s : step) (k : string) :
  In s (steps key) -> In k input_fields ->
  k <> own_field s /\ k <> "error"%string.
Proof.
  intros [<-|[<-|[<-|[]]]] Hk; vm_compute in Hk;
    repeat (destruct Hk as [<-|Hk]; [split; discriminate|]); destruct Hk.
Qed.

(** C9: each of the three nodes leaves topic, duration, tone, platform and
    language as they were: whenever a node returns a state, that state
    agrees with the input state on the five keys; and on a state that has
    every key of [ScriptState] the node does return a state. *)
Theorem steps_keep_inputs (key : option pystr) (s : step)
    (state : gmap string pyval) (w : world) :
  In s (steps key) ->
  (forall state' w', returns (run_node s state) w state' w' ->
     forall k, In k input_fields -> state' !! k = state !! k)
  /\ (is_ScriptState state ->
      exists state' w', returns (run_node s state) w state' w').
Proof.
  intros Hs. unfold returns.
  destruct (node_cases key s state w Hs)
    as [(_ & _ & Hrun)|[(e & Hp & _ & Hrun)|(p & Hp & _ & Hrun)]]; rewrite Hrun.
  - split; [|eauto]. intros state' w' [= <- <-]. reflexivity.
  - split; [discriminate|]. intros H.
    destruct (build_prompt_total key s state w Hs H) as [p Hp'].
    congruence.
  - split; [|eauto]. intros state' w' [= <- <-] k Hk.
    destruct (input_not_written key s k Hs Hk). by apply settle_other.
Qed.

Lemma steps_keep_inputs_witness :
  (exists state' w', returns (create_outline_node None cats) world_ok state' w')
  /\ (forall state' w', returns (create_outline_node None cats) world_ok state' w' ->
        state' !! "topic" = Some (VStr (lit "cats"))).
Proof.
  pose proof (steps_keep_inputs None (step_outline None) cats world_ok
                (or_introl eq_refl)) as [Hframe Htotal].
  split.
  - apply Htotal, initial_is_ScriptState.
  - intros state' w' Hret.
    rewrite (Hframe state' w' Hret "topic"); [reflexivity | vm_compute; tauto].
Defined.

(** C10: when the client raises during a step, the step leaves its own
    content field as it was and sets [error] to the step's prefix
    ("Error creating outline: ", "Error generating script: " or
    "Error generating hashtags: ") followed by the exception text; and
    whatever happens, a step does not write a content field of another
    step. *)
Theorem step_failure_atomic (key : option pystr) (s : step)
    (state : gmap string pyval) (w : world) :
  In s (steps key) ->
  In (own_field s, error_prefix s)
     [ ("script_outline", "Error creating outline: ");
       ("final_script", "Error generating script: ");
       ("hashtags", "Error generating hashtags: ") ]%string
  /\ (forall p e w1,
        returns (build_prompt s state) w p w ->
        (tests_error s = true -> truthy (state !! "error") = false) ->
        raises (call_groq_api key p) w e w1 ->
        exists state',
          returns (run_node s state) w state' w1
          /\ state' !! own_field s = state !! own_field s
          /\ state' !! "error" = Some (VStr (lit (error_prefix s) ++ str_exn e)))
  /\ (forall state' w',
        returns (run_node s state) w state' w' ->
        forall k, In k content_fields -> k <> own_field s ->
                  state' !! k = state !! k).
Proof.
  intros Hs. split; [|split].
  - destruct Hs as [<-|[<-|[<-|[]]]]; simpl; tauto.
  - unfold returns. intros p e w1 Hp Hguard Hcall.
    apply call_raises in Hcall as [Hres ->].
    destruct (node_cases key s state w Hs)
      as [(Ht & He & _)|[(e' & Hp' & _ & _)|(p' & Hp' & _ & Hrun)]].
    + rewrite (Hguard Ht) in He. discriminate.
    + congruence.
    + assert (p' = p) as -> by congruence.
      rewrite Hrun, Hres. eexists. split; [reflexivity|]. split.
      * apply lookup_insert_ne. intros Heq.
        symmetry in Heq. exact (own_field_not_error key s Hs Heq).
      * apply settle_error_raised.
  - unfold returns. intros state' w' Hret k Hk Hown.
    destruct (node_cases key s state w Hs)
      as [(_ & _ & Hrun)|[(e & _ & _ & Hrun)|(p & _ & _ & Hrun)]];
      rewrite Hrun in Hret.
    + injection Hret as <- <-. reflexivity.
    + discriminate.
    + injection Hret as <- <-. apply settle_other; [exact Hown|].
      vm_compute in Hk. repeat (destruct Hk as [<-|Hk]; [discriminate|]).
      destruct Hk.
Qed.

Lemma step_failure_atomic_witness :
  exists state',
    returns (create_outline_node None cats) world_down state'
      (after world_down (groq_request None (prompt1 cats)))
    /\ state' !! "script_outline" = Some (VStr [])
    /\ state' !! "error"
       = Some (VStr (lit "Error creating outline: connection refused")).
Proof.
  destruct (step_failure_atomic None (step_outline None) cats world_down
              (or_introl eq_refl)) as (_ & Hfail & _).
  apply (Hfail (prompt1 cats) (ConnectionError "connection refused")).
  - reflexivity.
  - discriminate.
  - reflexivity.
Defined.

(** ** The form *)

(** C8: a blank topic (empty or whitespace only) is answered with the
    validation message alone; the pipeline is not run and the world is
    left as it was, so no request is sent. *)
Theorem blank_topic_rejected (key : option pystr) (topic : pystr) (duration : Z)
    (tone platform language : pystr) (w : world) :
  blank topic = true ->
  returns (on_submit key topic duration tone platform language) w
    [st_error (lit "Please enter a topic!")] w.
Proof.
  intros Hb. unfold returns, on_submit.
  rewrite strip_blank by exact Hb. reflexivity.
Qed.

Lemma blank_topic_rejected_witness :
  returns (on_submit None (lit "   " ++ nl) 60 (lit "Friendly") [] (lit "English"))
    world_ok [st_error (lit "Please enter a topic!")] world_ok
  /\ sent world_ok = [].
Proof.
  split; [|reflexivity].
  apply blank_topic_rejected. reflexivity.
Defined.

(** ** Error text as content, and skipping *)

Lemma after_neq (w : world) (req : request) : after w req <> w.
Proof.
  intros H. apply (f_equal (fun x => length (sent x))) in H.
  unfold after in H. simpl in H. rewrite length_app in H. simpl in H. lia.
Qed.

(** The outline is the first thing the script prompt embeds. *)
Lemma prompt2_outline_first (state : gmap string pyval) (t : pystr) :
  exists rest,
    prompt2 (with_outline state t)
    = nl ++ lit "    Based on this outline: " ++ t ++ rest.
Proof.
  eexists. unfold prompt2, script_text.
  rewrite (val_lookup (with_outline state t) "script_outline" (VStr t))
    by apply lookup_insert_eq.
  reflexivity.
Qed.

Lemma prompt2_contains_outline (state : gmap string pyval) (t : pystr) :
  contains (prompt2 (with_outline state t)) t.
Proof.
  destruct (prompt2_outline_first state t) as [rest Hp].
  exists (nl ++ lit "    Based on this outline: "), rest.
  rewrite Hp, <- app_assoc. reflexivity.
Qed.

(** C1: when the first call gets a non-200 response, the outline node
    stores the text "Error: <status> - <body>" as the outline, the script
    node then runs (it posts its request) and its prompt contains that
    text, in the place of the outline; a node is skipped exactly when [error] is already set on entry,
    and a node sets [error] only when its call raised. *)
Theorem sentinel_reaches_step2 (key : option pystr) :
  (forall state w r,
     is_ScriptState state ->
     truthy (state !! "error") = false ->
     endpoint w (sent w) (groq_request key (prompt1 state)) = Responded r ->
     status_code r <> 200 ->
     let s := sentinel (status_code r) (text r) in
     let w1 := after w (groq_request key (prompt1 state)) in
     let p2 := prompt2 (with_outline state s) in
     returns (create_outline_node key state) w (with_outline state s) w1
     /\ returns (script_prompt (with_outline state s)) w1 p2 w1
     /\ contains p2 s
     /\ (exists rest, p2 = nl ++ lit "    Based on this outline: " ++ s ++ rest)
     /\ exists state2,
          returns (generate_script_node key (with_outline state s)) w1
            state2 (after w1 (groq_request key p2)))
  /\ (forall s state w,
        In s (steps key) -> tests_error s = true ->
        (skipped (run_node s) state w <-> truthy (state !! "error") = true))
  /\ (forall s state w state' w',
        In s (steps key) ->
        returns (run_node s state) w state' w' ->
        truthy (state' !! "error") = true ->
        truthy (state !! "error") = true
        \/ exists p e, returns (build_prompt s state) w p w
                       /\ raises (call_groq_api key p) w e w').
Proof.
  split; [|split].
  - intros state w r H He Hr Hn s w1 p2.
    assert (H1 : returns (call_groq_api key (prompt1 state)) w s w1)
      by exact (proj2 (call_groq_api_result key _ w r Hr) Hn).
    assert (Hs1 : is_ScriptState (with_outline state s))
      by apply insert_is_ScriptState, H.
    assert (He1 : truthy (with_outline state s !! "error") = false)
      by (rewrite with_outline_error; exact He).
    split; [exact (outline_returned key _ _ _ _ H H1)|].
    split; [exact (script_prompt_run _ w1 Hs1)|].
    split; [apply prompt2_contains_outline|].
    split; [apply prompt2_outline_first|].
    eexists. unfold returns.
    rewrite generate_script_node_run by assumption. reflexivity.
  - intros s state w Hs Ht. unfold skipped.
    destruct (node_cases key s state w Hs)
      as [(_ & He & Hrun)|[(e & _ & He & Hrun)|(p & _ & He & Hrun)]];
      rewrite Hrun.
    + tauto.
    + split; [discriminate|]. rewrite (He Ht). discriminate.
    + split.
      * intros [= _ Hw]. destruct (after_neq _ _ Hw).
      * rewrite (He Ht). discriminate.
  - intros s state w state' w' Hs Hret Herr. unfold returns in Hret.
    destruct (node_cases key s state w Hs)
      as [(_ & He & Hrun)|[(e & _ & _ & Hrun)|(p & Hp & _ & Hrun)]];
      rewrite Hrun in Hret.
    + auto.
    + discriminate.
    + injection Hret as <- <-.
      destruct (client_result _) as [e|t] eqn:Hres.
      * right. exists p, e. split; [exact Hp|].
        unfold raises. rewrite call_groq_api_run, Hres. reflexivity.
      * left. simpl in Herr.
        rewrite lookup_insert_ne in Herr; [exact Herr|].
        exact (own_field_not_error key s Hs).
Qed.

Lemma sentinel_reaches_step2_witness :
  let s := sentinel 500 (lit "Internal Server Error") in
  let w1 := after world_500 (groq_request None (prompt1 no_platform)) in
  let p2 := prompt2 (with_outline no_platform s) in
  returns (create_outline_node None no_platform) world_500
    (with_outline no_platform s) w1
  /\ returns (script_prompt (with_outline no_platform s)) w1 p2 w1
  /\ contains p2 s
  /\ (exists rest, p2 = nl ++ lit "    Based on this outline: " ++ s ++ rest)
  /\ exists state2,
       returns (generate_script_node None (with_outline no_platform s)) w1
         state2 (after w1 (groq_request None p2)).
Proof.
  apply (proj1 (sentinel_reaches_step2 None) no_platform world_500
           (failure 500 (lit "Internal Server Error"))).
  - apply initial_is_ScriptState.
  - reflexivity.
  - reflexivity.
  - discriminate.
Defined.

(** ** Faults and the state at completion *)

Lemma nonempty_neq (s : pystr) : nonempty s = true -> s <> [].
Proof. destruct s; [discriminate | discriminate]. Qed.

Lemma error_populated (state : gmap string pyval) (prefix : string) (e : exn) :
  prefix <> ""%string -> field_populated (with_error state prefix e) "error".
Proof.
  intros H. exists (lit prefix ++ str_exn e). split.
  - apply lookup_insert_eq.
  - apply nonempty_neq, prefixed_nonempty, H.
Qed.

Ltac read_field :=
  unfold field_empty, field_is, with_error, with_hashtags, with_script,
    with_outline, initial_state;
  reflexivity.

(** C3 (as amended): in a pipeline run, a fault raised by the first call
    leaves outline, script and hashtags empty and error non-empty; a fault
    first raised by the second call leaves script and hashtags empty (the
    outline holds the first call's text) and error non-empty; a fault first
    raised by the third call leaves hashtags empty and error non-empty;
    and a later node that finds error set hands the state back unchanged
    without a call. *)
Theorem fault_leaves_later_fields_empty (key : option pystr) (topic : pystr)
    (duration : Z) (tone platform language : pystr) (w : world) :
  let init := initial_state topic duration tone platform language in
  (forall e w1,
     raises (call_groq_api key (prompt1 init)) w e w1 ->
     exists state,
       returns (invoke key init) w state w1
       /\ field_empty state "script_outline"
       /\ field_empty state "final_script"
       /\ field_empty state "hashtags"
       /\ field_populated state "error")
  /\ (forall t1 w1 e w2,
        returns (call_groq_api key (prompt1 init)) w t1 w1 ->
        raises (call_groq_api key (prompt2 (with_outline init t1))) w1 e w2 ->
        exists state,
          returns (invoke key init) w state w2
          /\ field_is state "script_outline" t1
          /\ field_empty state "final_script"
          /\ field_empty state "hashtags"
          /\ field_populated state "error")
  /\ (forall t1 w1 t2 w2 e w3,
        returns (call_groq_api key (prompt1 init)) w t1 w1 ->
        returns (call_groq_api key (prompt2 (with_outline init t1))) w1 t2 w2 ->
        raises (call_groq_api key
                  (prompt3 (with_script (with_outline init t1) t2))) w2 e w3 ->
        exists state,
          returns (invoke key init) w state w3
          /\ field_is state "script_outline" t1
          /\ field_is state "final_script" t2
          /\ field_empty state "hashtags"
          /\ field_populated state "error")
  /\ (forall state w',
        truthy (state !! "error") = true ->
        skipped (generate_script_node key) state w'
        /\ skipped (generate_hashtags_node key) state w').
Proof.
  intros init.
  pose proof (initial_is_ScriptState topic duration tone platform language) as H.
  pose proof (initial_no_error topic duration tone platform language) as He.
  fold init in H, He.
  split; [|split; [|split]].
  - intros e w1 H1. eexists. split; [exact (invoke_fault1 key _ _ _ _ H H1)|].
    repeat split; try read_field. apply error_populated. discriminate.
  - intros t1 w1 e w2 H1 H2. eexists.
    split; [exact (invoke_fault2 key _ _ _ _ _ _ H He H1 H2)|].
    repeat split; try read_field. apply error_populated. discriminate.
  - intros t1 w1 t2 w2 e w3 H1 H2 H3. eexists.
    split; [exact (invoke_fault3 key _ _ _ _ _ _ _ _ H He H1 H2 H3)|].
    repeat split; try read_field. apply error_populated. discriminate.
  - intros state w' Hs. split.
    + apply generate_script_node_skip, Hs.
    + apply generate_hashtags_node_skip, Hs.
Qed.

Lemma fault_leaves_later_fields_empty_witness :
  exists state,
    returns (invoke None cats) world_fault2 state
      (after (after world_fault2 (groq_request None (prompt1 cats)))
             (groq_request None (prompt2 (with_outline cats (lit "OUTLINE")))))
    /\ field_is state "script_outline" (lit "OUTLINE")
    /\ field_empty state "final_script"
    /\ field_empty state "hashtags"
    /\ field_populated state "error".
Proof.
  destruct (fault_leaves_later_fields_empty None (lit "cats") 60 (lit "Friendly")
              (lit "TikTok") (lit "English") world_fault2) as (_ & Hstep2 & _).
  apply (Hstep2 (lit "OUTLINE")
           (after world_fault2 (groq_request None (prompt1 cats)))
           (ConnectionError "connection refused")).
  - reflexivity.
  - reflexivity.
Defined.

(** C3 as stated fails: when the fault is first raised by the second call,
    hashtags is not the only empty content field, the script is empty
    too. *)
Lemma step2_fault_script_empty :
  fst (call_groq_api None (prompt1 cats) world_fault2) = inr (lit "OUTLINE")
  /\ fst (call_groq_api None (prompt2 (with_outline cats (lit "OUTLINE")))
            (after world_fault2 (groq_request None (prompt1 cats))))
     = inl (ConnectionError "connection refused")
  /\ fst (invoke None cats world_fault2) = inr fault2_final
  /\ field_empty fault2_final "final_script"
  /\ ~ only_hashtags_empty fault2_final.
Proof.
  repeat split; try reflexivity.
  intros (_ & _ & s & Hs & Hne).
  assert (Hl : fault2_final !! "final_script" = Some (VStr [])) by reflexivity.
  unfold field_is in Hs. rewrite Hl in Hs. injection Hs as <-. congruence.
Qed.

(** C4 as stated fails: when the calls return empty text, the run ends with
    no error and no content field populated, which is neither of the two
    alternatives. *)
Lemma silent_run_neither :
  fst (invoke None cats world_silent) = inr silent_final
  /\ ~ completed_ok silent_final
  /\ ~ completed_failed silent_final.
Proof.
  split; [reflexivity|]. split.
  - intros ((s & Hs & Hne) & _).
    assert (Hl : silent_final !! "script_outline" = Some (VStr [])) by reflexivity.
    unfold field_is in Hs. rewrite Hl in Hs. injection Hs as <-. congruence.
  - intros (s & Hs & Hne).
    assert (Hl : silent_final !! "error" = Some (VStr [])) by reflexivity.
    unfold field_is in Hs. rewrite Hl in Hs. injection Hs as <-. congruence.
Qed.

(** C4 (as amended): a pipeline run always completes, and at completion
    exactly one of the following holds: error is empty and the three
    content fields hold the texts the three calls returned (so all three
    are populated when none of these texts is empty), or error is
    non-empty. *)
Theorem completion_state (key : option pystr) (topic : pystr) (duration : Z)
    (tone platform language : pystr) (w : world) :
  let init := initial_state topic duration tone platform language in
  exists state w',
    returns (invoke key init) w state w'
    /\ ((field_empty state "error"
         /\ exists t1 w1 t2 w2 t3,
              returns (call_groq_api key (prompt1 init)) w t1 w1
              /\ returns (call_groq_api key (prompt2 (with_outline init t1))) w1 t2 w2
              /\ returns (call_groq_api key
                            (prompt3 (with_script (with_outline init t1) t2))) w2 t3 w'
              /\ field_is state "script_outline" t1
              /\ field_is state "final_script" t2
              /\ field_is state "hashtags" t3
              /\ (t1 <> [] -> t2 <> [] -> t3 <> [] -> completed_ok state))
        \/ completed_failed state)
    /\ ~ (field_empty state "error" /\ completed_failed state).
Proof.
  intros init.
  pose proof (initial_is_ScriptState topic duration tone platform language) as H.
  pose proof (initial_no_error topic duration tone platform language) as He.
  fold init in H, He.
  assert (Hexcl : forall state : gmap string pyval,
             ~ (field_empty state "error" /\ completed_failed state)).
  { intros state (Hempty & s & Hs & Hne).
    unfold field_empty, field_is in *. congruence. }
  destruct (call_total key (prompt1 init) w) as [[t1 H1]|[e H1]].
  2:{ do 2 eexists. split; [exact (invoke_fault1 key _ _ _ _ H H1)|].
      split; [|apply Hexcl]. right. apply error_populated. discriminate. }
  destruct (call_total key (prompt2 (with_outline init t1))
              (after w (groq_request key (prompt1 init)))) as [[t2 H2]|[e H2]].
  2:{ do 2 eexists. split; [exact (invoke_fault2 key _ _ _ _ _ _ H He H1 H2)|].
      split; [|apply Hexcl]. right. apply error_populated. discriminate. }
  destruct (call_total key (prompt3 (with_script (with_outline init t1) t2))
              (after (after w (groq_request key (prompt1 init)))
                     (groq_request key (prompt2 (with_outline init t1)))))
    as [[t3 H3]|[e H3]].
  2:{ do 2 eexists.
      split; [exact (invoke_fault3 key _ _ _ _ _ _ _ _ H He H1 H2 H3)|].
      split; [|apply Hexcl]. right. apply error_populated. discriminate. }
  do 2 eexists.
  split; [exact (invoke_ok key _ _ _ _ _ _ _ _ H He H1 H2 H3)|].
  split; [|apply Hexcl]. left.
  split; [read_field|].
  exists t1, (after w (groq_request key (prompt1 init))), t2,
    (after (after w (groq_request key (prompt1 init)))
           (groq_request key (prompt2 (with_outline init t1)))), t3.
  repeat split; try assumption; try read_field.
  - exists t1. split; [read_field | assumption].
  - exists t2. split; [read_field | assumption].
  - exists t3. split; [read_field | assumption].
Qed.

(** ** Rendering *)

Lemma length_lstrip (s : pystr) : (length (lstrip s) <= length s)%nat.
Proof.
  induction s as [|c s IH]; simpl; [lia|].
  destruct (isspace c); simpl; lia.
Qed.

Lemma rstrip_space_last (u : pystr) (c : N) :
  isspace c = true -> rstrip (u ++ [c]) = rstrip u.
Proof.
  intros Hc. unfold rstrip. rewrite rev_app_distr. simpl. rewrite Hc.
  reflexivity.
Qed.

(** A non-empty string that [rstrip] leaves alone ends in a non-space. *)
Lemma trimmed_last (h : pystr) :
  rstrip h = h -> h <> [] -> exists u c, h = u ++ [c] /\ isspace c = false.
Proof.
  intros Ht Hne. destruct (exists_last Hne) as (u & c & ->).
  exists u, c. split; [reflexivity|].
  destruct (isspace c) eqn:Hc; [|reflexivity].
  rewrite rstrip_space_last in Ht by exact Hc.
  apply (f_equal (@length N)) in Ht. unfold rstrip in Ht.
  rewrite length_rev, length_app in Ht. simpl in Ht.
  pose proof (length_lstrip (rev u)) as Hl. rewrite length_rev in Hl. lia.
Qed.

Lemma rstrip_keep (u h : pystr) (c : N) (v : pystr) :
  isspace c = false ->
  rstrip (u ++ (h ++ [c]) ++ v) = u ++ (h ++ [c]) ++ rstrip v.
Proof.
  intros Hc.
  replace (u ++ (h ++ [c]) ++ v) with ((u ++ h) ++ c :: v)
    by (rewrite <- !app_assoc; reflexivity).
  rewrite rstrip_stop by exact Hc. rewrite <- !app_assoc. reflexivity.
Qed.

Lemma lstrip_response (x : pystr) :
  lstrip (nl ++ heading_outline ++ x) = heading_outline ++ x.
Proof. reflexivity. Qed.

Lemma heading_hashtags_last :
  heading_hashtags
  = (lit "## " ++ [127991%N; 65039%N] ++ lit " Hashtags & Captio") ++ [110%N].
Proof. reflexivity. Qed.

Lemma rstrip_after_heading (u v : pystr) :
  rstrip (u ++ heading_hashtags ++ v) = u ++ heading_hashtags ++ rstrip v.
Proof.
  rewrite heading_hashtags_last. apply rstrip_keep. reflexivity.
Qed.

(** [response.strip()] takes the leading newline and the trailing
    whitespace away; what is between stays. *)
Lemma strip_response (a b c : pyval) :
  strip (response_text a b c) = sections_stripped (fmt a) (fmt b) (fmt c).
Proof.
  unfold strip, response_text, sections_stripped.
  rewrite lstrip_response.
  set (v := nl ++ fmt c ++ nl ++ lit "        ").
  rewrite !app_assoc. rewrite <- (app_assoc _ heading_hashtags v).
  rewrite rstrip_after_heading. rewrite <- !app_assoc. reflexivity.
Qed.

Lemma sections_trimmed (o s h : pystr) :
  rstrip h = h -> h <> [] -> sections_stripped o s h = sections o s h.
Proof.
  intros Ht Hne. destruct (trimmed_last h Ht Hne) as (u & c & -> & Hc).
  unfold sections_stripped, sections. do 9 f_equal.
  rewrite (rstrip_keep nl u c (nl ++ lit "        ") Hc).
  change (rstrip (nl ++ lit "        ")) with (@nil N).
  rewrite app_nil_r. reflexivity.
Qed.

Lemma get_val (state : gmap string pyval) (k : string) (d : pyval) :
  is_Some (state !! k) -> get state k d = val state k.
Proof. intros [v Hv]. unfold val, get. rewrite Hv. reflexivity. Qed.

Section Render.

Variable key : option pystr.

(** A run from a state with every key and no error completes, in a state
    with every key. *)
Lemma invoke_total (state : gmap string pyval) (w : world) :
  is_ScriptState state -> truthy (state !! "error") = false ->
  exists state' w', invoke key state w = (inr state', w') /\ is_ScriptState state'.
Proof.
  intros H He.
  destruct (call_total key (prompt1 state) w) as [[t1 H1]|[e H1]].
  2:{ do 2 eexists. split; [exact (invoke_fault1 key _ _ _ _ H H1)|].
      apply insert_is_ScriptState, H. }
  destruct (call_total key (prompt2 (with_outline state t1))
              (after w (groq_request key (prompt1 state)))) as [[t2 H2]|[e H2]].
  2:{ do 2 eexists. split; [exact (invoke_fault2 key _ _ _ _ _ _ H He H1 H2)|].
      do 2 apply insert_is_ScriptState. exact H. }
  destruct (call_total key (prompt3 (with_script (with_outline state t1) t2))
              (after (after w (groq_request key (prompt1 state)))
                     (groq_request key (prompt2 (with_outline state t1)))))
    as [[t3 H3]|[e H3]].
  - do 2 eexists. split; [exact (invoke_ok key _ _ _ _ _ _ _ _ H He H1 H2 H3)|].
    do 3 apply insert_is_ScriptState. exact H.
  - do 2 eexists.
    split; [exact (invoke_fault3 key _ _ _ _ _ _ _ _ H He H1 H2 H3)|].
    do 3 apply insert_is_ScriptState. exact H.
Qed.

End Render.

(** C5: the text [generate_script] returns for a run is the error line
    (the cross mark, a space, the error text) when the final state has a
    non-empty error, and otherwise the outline, script and hashtags under
    their three headings, in that order, with the whitespace at the end of
    the text taken off; the stub that answers OUTLINE, SCRIPT, TAGS always
    renders the same text. *)
Theorem generate_script_renders (key : option pystr) (topic : pystr)
    (duration : Z) (tone platform language : pystr) (w : world) :
  (exists state w' out,
     returns (invoke key (initial_state topic duration tone platform language))
       w state w'
     /\ returns (generate_script key topic duration tone platform language)
          w out w'
     /\ (truthy (state !! "error") = true ->
         out = error_line (fmt (val state "error")))
     /\ (truthy (state !! "error") = false ->
         let o := fmt (val state "script_outline") in
         let s := fmt (val state "final_script") in
         let h := fmt (val state "hashtags") in
         out = sections_stripped o s h
         /\ (rstrip h = h -> h <> [] -> out = sections o s h)))
  /\ returns (generate_script key (lit "cats") 60 (lit "Friendly") []
                (lit "English"))
       world_stub
       (sections (lit "OUTLINE") (lit "SCRIPT") (lit "TAGS"))
       (snd (invoke key no_platform world_stub)).
Proof.
  split.
  - destruct (invoke_total key
                (initial_state topic duration tone platform language) w
                (initial_is_ScriptState _ _ _ _ _) (initial_no_error _ _ _ _ _))
      as (state & w' & Hrun & Hst).
    exists state, w'.
    assert (Hk : forall k, In k fields -> is_Some (state !! k)) by exact Hst.
    unfold returns, generate_script, try_except.
    fold (initial_state topic duration tone platform language).
    rewrite bind_run, Hrun.
    destruct (truthy (state !! "error")) eqn:He.
    + eexists. split; [reflexivity|].
      rewrite bind_run, (getitem_val _ _ _ Hst) by (vm_compute; tauto).
      split; [reflexivity|]. split; [reflexivity | discriminate].
    + eexists. split; [reflexivity|].
      rewrite !get_val by (apply Hk; vm_compute; tauto).
      rewrite strip_response.
      split; [reflexivity|]. split; [discriminate|].
      intros _. cbv zeta. split; [reflexivity|]. apply sections_trimmed.
  - unfold returns. destruct key; reflexivity.
Qed.

(** ** Defaults and configuration *)

(** C6 fails on the code: with the platform left empty the outline prompt
    carries the empty text after "Platform: ", not "Any"; the default is
    used only for a dict that has no platform key at all. *)
Theorem empty_platform_not_defaulted :
  fst (outline_prompt no_platform world_stub)
    = inr (outline_text (VInt 60) (VStr (lit "cats")) (VStr (lit "English"))
             (VStr (lit "Friendly")) (VStr []))
  /\ sent (snd (create_outline_node None no_platform world_stub))
     = [groq_request None
          (outline_text (VInt 60) (VStr (lit "cats")) (VStr (lit "English"))
             (VStr (lit "Friendly")) (VStr []))]
  /\ outline_text (VInt 60) (VStr (lit "cats")) (VStr (lit "English"))
       (VStr (lit "Friendly")) (VStr [])
     <> outline_text (VInt 60) (VStr (lit "cats")) (VStr (lit "English"))
          (VStr (lit "Friendly")) Any
  /\ fst (outline_prompt (delete "platform" no_platform) world_stub)
     = inr (outline_text (VInt 60) (VStr (lit "cats")) (VStr (lit "English"))
              (VStr (lit "Friendly")) Any).
Proof.
  repeat split; try reflexivity.
  intros H. vm_compute in H. discriminate H.
Qed.

(** C7 as stated fails: with the variable unset nothing fails at start;
    a submission runs the pipeline and posts three requests, each with the
    header "Authorization: Bearer None". *)
Lemma missing_key_still_posts :
  getenv ∅ "GROQ_API_KEY" = None
  /\ fst (on_submit (getenv ∅ "GROQ_API_KEY") (lit "cats") 60 (lit "Friendly") []
            (lit "English") world_stub)
     = inr [ st_spinner ([128260%N] ++ lit " Creating script outline...");
             st_subheader ([128203%N] ++ lit " Generated Content");
             st_markdown (sections (lit "OUTLINE") (lit "SCRIPT") (lit "TAGS"));
             st_success ([9989%N]
               ++ lit " Script generated! Copy and use it for your next post.") ]
  /\ map headers
       (sent (snd (on_submit (getenv ∅ "GROQ_API_KEY") (lit "cats") 60
                     (lit "Friendly") [] (lit "English") world_stub)))
     = repeat [ (lit "Authorization", lit "Bearer None");
                (lit "Content-Type", lit "application/json") ] 3.
Proof. repeat split; reflexivity. Qed.

(** C7 (as amended): with the variable unset the key is [None]; the
    program does not stop, and each call of the client posts its request
    to the endpoint with the header "Authorization: Bearer None". *)
Theorem missing_key_sends_bearer_none (environ : gmap string pystr)
    (prompt : pystr) (w : world) :
  getenv environ "GROQ_API_KEY" = None ->
  let key := getenv environ "GROQ_API_KEY" in
  sent (snd (call_groq_api key prompt w)) = sent w ++ [groq_request key prompt]
  /\ url (groq_request key prompt) = GROQ_API_URL
  /\ headers (groq_request key prompt)
     = [ (lit "Authorization", lit "Bearer None");
         (lit "Content-Type", lit "application/json") ].
Proof.
  intros Hk key. subst key. rewrite call_groq_api_run, Hk.
  repeat split; reflexivity.
Qed.

Lemma missing_key_sends_bearer_none_witness :
  sent (snd (call_groq_api (getenv ∅ "GROQ_API_KEY") (lit "hi") world_ok))
    = [groq_request None (lit "hi")]
  /\ headers (groq_request None (lit "hi"))
     = [ (lit "Authorization", lit "Bearer None");
         (lit "Content-Type", lit "application/json") ].
Proof.
  assert (Hunset : getenv ∅ "GROQ_API_KEY" = None) by reflexivity.
  destruct (missing_key_sends_bearer_none ∅ (lit "hi") world_ok Hunset)
    as (Hsent & _ & Hh).
  split; [exact Hsent | exact Hh].
Defined.

(** * Further properties of the code *)

(** ** The ways a run can go *)

Section RunCases.

Variable key : option pystr.

Lemma run_cases (state : gmap string pyval) (w : world) :
  is_ScriptState state -> truthy (state !! "error") = false ->
  let r1 := groq_request key (prompt1 state) in
  (exists e,
     raises (call_groq_api key (prompt1 state)) w e (after w r1)
     /\ invoke key state w
        = (inr (with_error state "Error creating outline: " e), after w r1))
  \/ (exists t1,
        let s1 := with_outline state t1 in
        let r2 := groq_request key (prompt2 s1) in
        returns (call_groq_api key (prompt1 state)) w t1 (after w r1)
        /\ ((exists e,
               raises (call_groq_api key (prompt2 s1)) (after w r1) e
                 (after (after w r1) r2)
               /\ invoke key state w
                  = (inr (with_error s1 "Error generating script: " e),
                     after (after w r1) r2))
            \/ (exists t2,
                  let s2 := with_script s1 t2 in
                  let r3 := groq_request key (prompt3 s2) in
                  returns (call_groq_api key (prompt2 s1)) (after w r1) t2
                    (after (after w r1) r2)
                  /\ ((exists e,
                         raises (call_groq_api key (prompt3 s2))
                           (after (after w r1) r2) e
                           (after (after (after w r1) r2) r3)
                         /\ invoke key state w
                            = (inr (with_error s2 "Error generating hashtags: " e),
                               after (after (after w r1) r2) r3))
                      \/ (exists t3,
                            returns (call_groq_api key (prompt3 s2))
                              (after (after w r1) r2) t3
                              (after (after (after w r1) r2) r3)
                            /\ invoke key state w
                               = (inr (with_hashtags s2 t3),
                                  after (after (after w r1) r2) r3)))))).
Proof.
  intros H He r1.
  destruct (call_total key (prompt1 state) w) as [[t1 H1]|[e H1]].
  2:{ left. exists e. split; [exact H1|]. exact (invoke_fault1 key _ _ _ _ H H1). }
  right. exists t1. intros s1 r2. split; [exact H1|].
  destruct (call_total key (prompt2 s1) (after w r1)) as [[t2 H2]|[e H2]].
  2:{ left. exists e. split; [exact H2|].
      exact (invoke_fault2 key _ _ _ _ _ _ H He H1 H2). }
  right. exists t2. intros s2 r3. split; [exact H2|].
  destruct (call_total key (prompt3 s2) (after (after w r1) r2))
    as [[t3 H3]|[e H3]].
  - right. exists t3. split; [exact H3|].
    exact (invoke_ok key _ _ _ _ _ _ _ _ H He H1 H2 H3).
  - left. exists e. split; [exact H3|].
    exact (invoke_fault3 key _ _ _ _ _ _ _ _ H He H1 H2 H3).
Qed.

(** What [generate_script] makes of the state its run ends in. *)
Lemma generate_script_run (topic : pystr) (duration : Z)
    (tone platform language : pystr) (w : world)
    (state : gmap string pyval) (w' : world) :
  invoke key (initial_state topic duration tone platform language) w
    = (inr state, w') ->
  is_ScriptState state ->
  generate_script key topic duration tone platform language w
  = (inr (if truthy (state !! "error")
          then error_line (fmt (val state "error"))
          else sections_stripped (fmt (val state "script_outline"))
                 (fmt (val state "final_script")) (fmt (val state "hashtags"))),
     w').
Proof.
  intros Hrun Hst.
  unfold generate_script, try_except.
  fold (initial_state topic duration tone platform language).
  rewrite bind_run, Hrun.
  destruct (truthy (state !! "error")) eqn:He.
  - rewrite bind_run, (getitem_val _ _ _ Hst) by (vm_compute; tauto).
    reflexivity.
  - rewrite !get_val by (apply Hst; vm_compute; tauto).
    rewrite strip_response. reflexivity.
Qed.

End RunCases.

Lemma groq_request_shaped (key : option pystr) (prompt : pystr) :
  groq_shaped key (groq_request key prompt).
Proof.
  exists prompt. split; [reflexivity|]. split; [reflexivity|].
  split; [reflexivity|]. split; reflexivity.
Qed.

Lemma after_sent (w : world) (req : request) :
  sent (after w req) = sent w ++ [req].
Proof. reflexivity. Qed.

Lemma after_sent2 (w : world) (a b : request) :
  sent (after (after w a) b) = sent w ++ [a; b].
Proof. unfold after. cbn [sent]. rewrite <- app_assoc. reflexivity. Qed.

Lemma after_sent3 (w : world) (a b c : request) :
  sent (after (after (after w a) b) c) = sent w ++ [a; b; c].
Proof. unfold after. cbn [sent]. rewrite <- !app_assoc. reflexivity. Qed.

(** X1: a pipeline run always completes, and posts one request per node
    that ran: at least one, at most three, three when it ends without an
    error; the earlier log is kept, the endpoint is the same, and every
    request has the fixed shape of [call_groq_api]. *)
Theorem run_posts_one_to_three (key : option pystr) (topic : pystr)
    (duration : Z) (tone platform language : pystr) (w : world) :
  exists state w' new,
    returns (invoke key (initial_state topic duration tone platform language))
      w state w'
    /\ endpoint w' = endpoint w
    /\ sent w' = sent w ++ new
    /\ (1 <= length new <= 3)%nat
    /\ (truthy (state !! "error") = false -> length new = 3%nat)
    /\ Forall (groq_shaped key) new.
Proof.
  set (init := initial_state topic duration tone platform language).
  pose proof (initial_is_ScriptState topic duration tone platform language) as H.
  pose proof (initial_no_error topic duration tone platform language) as He.
  fold init in H, He.
  destruct (run_cases key init w H He)
    as [(e & _ & Hrun)
       |(t1 & _ & [(e & _ & Hrun)
                  |(t2 & _ & [(e & _ & Hrun)|(t3 & _ & Hrun)])])];
    unfold returns; rewrite Hrun; do 3 eexists;
    (split; [reflexivity|]); (split; [reflexivity|]).
  - split; [apply after_sent|]. split; [cbn [length]; lia|]. split.
    + intros Hf. rewrite with_error_truthy in Hf; discriminate.
    + repeat (apply List.Forall_cons; [apply groq_request_shaped|]).
      apply List.Forall_nil.
  - split; [apply after_sent2|]. split; [cbn [length]; lia|]. split.
    + intros Hf. rewrite with_error_truthy in Hf; discriminate.
    + repeat (apply List.Forall_cons; [apply groq_request_shaped|]).
      apply List.Forall_nil.
  - split; [apply after_sent3|]. split; [cbn [length]; lia|].
    split; [reflexivity|].
    repeat (apply List.Forall_cons; [apply groq_request_shaped|]).
    apply List.Forall_nil.
  - split; [apply after_sent3|]. split; [cbn [length]; lia|].
    split; [reflexivity|].
    repeat (apply List.Forall_cons; [apply groq_request_shaped|]).
    apply List.Forall_nil.
Qed.

(** ** The client on a 200 response *)

Lemma lstrip_head (s : pystr) :
  lstrip s = [] \/ exists c v, lstrip s = c :: v /\ isspace c = false.
Proof.
  induction s as [|c s IH]; simpl; [left; reflexivity|].
  destruct (isspace c) eqn:Hc; [exact IH|]. right. eauto.
Qed.

Lemma lstrip_idem (s : pystr) : lstrip (lstrip s) = lstrip s.
Proof.
  destruct (lstrip_head s) as [->|(c & v & -> & Hc)]; [reflexivity|].
  simpl. rewrite Hc. reflexivity.
Qed.

Lemma rstrip_idem (s : pystr) : rstrip (rstrip s) = rstrip s.
Proof. unfold rstrip. rewrite rev_involutive, lstrip_idem. reflexivity. Qed.

(** [strip] leaves nothing to strip. *)
Lemma strip_trimmed (s : pystr) :
  lstrip (strip s) = strip s /\ rstrip (strip s) = strip s.
Proof.
  unfold strip. split; [|apply rstrip_idem].
  destruct (lstrip_head s) as [->|(c & v & -> & Hc)]; [reflexivity|].
  pose proof (rstrip_stop [] c v Hc) as E. cbn [app] in E. rewrite E.
  cbn [lstrip]. rewrite Hc. reflexivity.
Qed.

Lemma assoc_choices_shape (v : json) (x : json) :
  getitem_key v "choices" = inr x ->
  exists doc, v = JObj doc /\ assoc (lit "choices") doc = Some x.
Proof.
  destruct v; try discriminate. unfold getitem_key.
  destruct (assoc _ _) eqn:Ha; [|discriminate].
  intros [= <-]. eauto.
Qed.

Lemma assoc_message_shape (v : json) (x : json) :
  getitem_key v "message" = inr x ->
  exists doc, v = JObj doc /\ assoc (lit "message") doc = Some x.
Proof.
  destruct v; try discriminate. unfold getitem_key.
  destruct (assoc _ _) eqn:Ha; [|discriminate].
  intros [= <-]. eauto.
Qed.

Lemma assoc_content_shape (v : json) (x : json) :
  getitem_key v "content" = inr x ->
  exists doc, v = JObj doc /\ assoc (lit "content") doc = Some x.
Proof.
  destruct v; try discriminate. unfold getitem_key.
  destruct (assoc _ _) eqn:Ha; [|discriminate].
  intros [= <-]. eauto.
Qed.

(** The chain of subscripts gets through only on the expected shape. *)
Lemma read_200 (r : response) (t : pystr) :
  status_code r = 200 ->
  client_result (Responded r) = inr t ->
  exists c, first_choice_content r c /\ t = strip c.
Proof.
  intros H200. unfold client_result. rewrite H200. cbn [Z.eqb Pos.eqb].
  destruct (json_of r) as [e|doc] eqn:Hj; [discriminate|]. cbn [bind_sum].
  destruct (getitem_key doc "choices") as [e|choices] eqn:Hc; [discriminate|].
  cbn [bind_sum].
  destruct (getitem_0 choices) as [e|choice] eqn:H0; [discriminate|].
  cbn [bind_sum].
  destruct (getitem_key choice "message") as [e|msg] eqn:Hm; [discriminate|].
  cbn [bind_sum].
  destruct (getitem_key msg "content") as [e|c] eqn:Hs; [discriminate|].
  cbn [bind_sum].
  destruct c; try discriminate. intros [= <-].
  apply assoc_choices_shape in Hc as (d & -> & Hc).
  apply assoc_message_shape in Hm as (dm & -> & Hm).
  apply assoc_content_shape in Hs as (dc & -> & Hs).
  destruct choices as [| | | | cs | items | ms]; try discriminate.
  - destruct cs; discriminate.
  - destruct items as [|x rest]; [discriminate|]. injection H0 as ->.
    exists s. split; [|reflexivity].
    exists d, dm, rest, dc. auto.
Qed.

(** X2: on a 200 response [call_groq_api] returns exactly when the body
    parses and [choices[0].message.content] is a string, and then returns
    that string stripped; on every other 200 response it raises.  Either
    way one request has been posted. *)
Theorem call_200_returns_iff (key : option pystr) (prompt : pystr) (w : world)
    (r : response) :
  endpoint w (sent w) (groq_request key prompt) = Responded r ->
  status_code r = 200 ->
  (forall t,
     returns (call_groq_api key prompt) w t (after w (groq_request key prompt))
     <-> exists c, first_choice_content r c /\ t = strip c)
  /\ ((forall c, ~ first_choice_content r c) ->
      exists e,
        raises (call_groq_api key prompt) w e (after w (groq_request key prompt))).
Proof.
  intros Hr H200. split.
  - intros t. split.
    + intros Hret. apply call_returns in Hret as [Hres _].
      rewrite Hr in Hres. exact (read_200 r t H200 Hres).
    + intros (c & Hc & ->).
      exact (proj1 (call_groq_api_result key prompt w r Hr) H200 c Hc).
  - intros Hno.
    destruct (call_total key prompt w) as [[t Hret]|[e Hra]]; [|eauto].
    apply call_returns in Hret as [Hres _]. rewrite Hr in Hres.
    destruct (read_200 r t H200 Hres) as (c & Hc & _).
    destruct (Hno c Hc).
Qed.

Lemma call_200_returns_iff_witness :
  returns (call_groq_api None (lit "hi")) world_ok (lit "Hello there")
    (after world_ok (groq_request None (lit "hi")))
  /\ exists e,
       raises (call_groq_api None (lit "hi")) world_no_choices e
         (after world_no_choices (groq_request None (lit "hi"))).
Proof.
  split.
  - apply (proj1 (call_200_returns_iff None (lit "hi") world_ok
                    (completion (lit "  Hello there ")) eq_refl eq_refl)).
    exists (lit "  Hello there "). split; [|reflexivity].
    repeat eexists; reflexivity.
  - apply (proj2 (call_200_returns_iff None (lit "hi") world_no_choices
                    no_choices eq_refl eq_refl)).
    intros c (doc & choice & others & msg & Hj & Hc & _).
    injection Hj as <-. discriminate Hc.
Defined.

(** X3: the text a 200 response makes [call_groq_api] return never begins
    or ends with whitespace, and is empty exactly when the content is
    blank. *)
Theorem completion_text_trimmed (key : option pystr) (prompt : pystr)
    (w : world) (r : response) (c : pystr) :
  endpoint w (sent w) (groq_request key prompt) = Responded r ->
  status_code r = 200 ->
  first_choice_content r c ->
  exists t,
    returns (call_groq_api key prompt) w t (after w (groq_request key prompt))
    /\ lstrip t = t
    /\ rstrip t = t
    /\ (t = [] <-> blank c = true).
Proof.
  intros Hr H200 Hc. exists (strip c).
  split; [exact (proj1 (call_groq_api_result key prompt w r Hr) H200 c Hc)|].
  destruct (strip_trimmed c) as [Hl Hrs].
  split; [exact Hl|]. split; [exact Hrs|]. apply strip_nil_iff.
Qed.

Lemma completion_text_trimmed_witness :
  exists t,
    returns (call_groq_api None (lit "hi")) world_ok t
      (after world_ok (groq_request None (lit "hi")))
    /\ lstrip t = t
    /\ rstrip t = t
    /\ (t = [] <-> blank (lit "  Hello there ") = true).
Proof.
  apply (completion_text_trimmed None (lit "hi") world_ok
           (completion (lit "  Hello there ")) (lit "  Hello there ")
           eq_refl eq_refl).
  repeat eexists; reflexivity.
Defined.

(** X4: a 200 response that cannot be read is reported by the outline node
    as an error of that step: a body that does not parse gives the decoding
    error's text, an object without "choices" gives the text 'choices' (the
    [KeyError]), an empty list of choices gives "list index out of range";
    the outline is left as it was. *)
Theorem unreadable_completion_reported (key : option pystr)
    (state : gmap string pyval) (w : world) (r : response) :
  is_ScriptState state ->
  endpoint w (sent w) (groq_request key (prompt1 state)) = Responded r ->
  status_code r = 200 ->
  let w1 := after w (groq_request key (prompt1 state)) in
  (forall e, json_of r = inl e ->
     returns (create_outline_node key state) w
       (<["error" := VStr (lit "Error creating outline: " ++ str_exn e)]> state) w1)
  /\ (forall doc, json_of r = inr (JObj doc) ->
        assoc (lit "choices") doc = None ->
        returns (create_outline_node key state) w
          (<["error" := VStr (lit "Error creating outline: 'choices'")]> state) w1)
  /\ (forall doc, json_of r = inr (JObj doc) ->
        assoc (lit "choices") doc = Some (JArr []) ->
        returns (create_outline_node key state) w
          (<["error" := VStr (lit "Error creating outline: list index out of range")]>
             state) w1).
Proof.
  intros H Hr H200 w1. unfold returns.
  rewrite create_outline_node_run by exact H. fold w1.
  rewrite Hr. unfold client_result. rewrite H200. cbn [Z.eqb Pos.eqb].
  split; [|split].
  - intros e ->. reflexivity.
  - intros doc -> Hc. cbn [bind_sum]. unfold getitem_key at 1. rewrite Hc.
    reflexivity.
  - intros doc -> Hc. cbn [bind_sum]. unfold getitem_key at 1. rewrite Hc.
    reflexivity.
Qed.

Lemma unreadable_completion_reported_witness :
  returns (create_outline_node None cats) world_no_choices
    (<["error" := VStr (lit "Error creating outline: 'choices'")]> cats)
    (after world_no_choices (groq_request None (prompt1 cats))).
Proof.
  destruct (unreadable_completion_reported None cats world_no_choices no_choices
              (initial_is_ScriptState _ _ _ _ _) eq_refl eq_refl)
    as (_ & Hno & _).
  apply (Hno []); reflexivity.
Defined.

(** ** Refused requests *)

Lemma sentinel_nonempty (status : Z) (body : pystr) : sentinel status body <> [].
Proof. apply nonempty_neq. reflexivity. Qed.

Lemma refused_call (key : option pystr) (prompt : pystr) (w : world) :
  always_refused w ->
  exists r,
    status_code r <> 200
    /\ returns (call_groq_api key prompt) w (sentinel (status_code r) (text r))
         (after w (groq_request key prompt)).
Proof.
  intros Hw. destruct (Hw (sent w) (groq_request key prompt)) as (r & Hr & Hn).
  exists r. split; [exact Hn|].
  exact (proj2 (call_groq_api_result key prompt w r Hr) Hn).
Qed.

Lemma always_refused_after (w : world) (req : request) :
  always_refused w -> always_refused (after w req).
Proof. intros Hw log q. exact (Hw log q). Qed.

(** X5: when the endpoint refuses every request (no answer has status 200),
    the run still makes all three calls and ends with no error: the three
    content fields hold the three "Error: <status> - <body>" texts, and
    [generate_script] shows them under the three headings instead of the
    error line. *)
Theorem refused_run_looks_complete (key : option pystr) (topic : pystr)
    (duration : Z) (tone platform language : pystr) (w : world) :
  always_refused w ->
  exists r1 r2 r3 state w',
    returns (invoke key (initial_state topic duration tone platform language))
      w state w'
    /\ length (sent w') = (length (sent w) + 3)%nat
    /\ field_is state "script_outline" (sentinel (status_code r1) (text r1))
    /\ field_is state "final_script" (sentinel (status_code r2) (text r2))
    /\ field_is state "hashtags" (sentinel (status_code r3) (text r3))
    /\ completed_ok state
    /\ returns (generate_script key topic duration tone platform language) w
         (sections_stripped (sentinel (status_code r1) (text r1))
            (sentinel (status_code r2) (text r2))
            (sentinel (status_code r3) (text r3))) w'.
Proof.
  intros Hw.
  set (init := initial_state topic duration tone platform language).
  pose proof (initial_is_ScriptState topic duration tone platform language) as H.
  pose proof (initial_no_error topic duration tone platform language) as He.
  fold init in H, He.
  destruct (refused_call key (prompt1 init) w Hw) as (r1 & _ & H1).
  set (t1 := sentinel (status_code r1) (text r1)) in *.
  set (w1 := after w (groq_request key (prompt1 init))) in *.
  assert (Hw1 : always_refused w1) by apply always_refused_after, Hw.
  destruct (refused_call key (prompt2 (with_outline init t1)) w1 Hw1)
    as (r2 & _ & H2).
  set (t2 := sentinel (status_code r2) (text r2)) in *.
  set (w2 := after w1 (groq_request key (prompt2 (with_outline init t1)))) in *.
  assert (Hw2 : always_refused w2) by apply always_refused_after, Hw1.
  destruct (refused_call key (prompt3 (with_script (with_outline init t1) t2))
              w2 Hw2) as (r3 & _ & H3).
  set (t3 := sentinel (status_code r3) (text r3)) in *.
  pose proof (invoke_ok key _ _ _ _ _ _ _ _ H He H1 H2 H3) as Hrun.
  exists r1, r2, r3. do 2 eexists.
  split; [exact Hrun|].
  split; [unfold w2, w1; rewrite after_sent3, length_app; reflexivity|].
  split; [reflexivity|]. split; [reflexivity|]. split; [reflexivity|].
  split.
  - split; [|split; [|split]].
    + exists t1. split; [reflexivity | apply sentinel_nonempty].
    + exists t2. split; [reflexivity | apply sentinel_nonempty].
    + exists t3. split; [reflexivity | apply sentinel_nonempty].
    + reflexivity.
  - unfold returns.
    rewrite (generate_script_run key _ _ _ _ _ _ _ _ Hrun)
      by (do 3 apply insert_is_ScriptState; exact H).
    reflexivity.
Qed.

Lemma world_denied_refuses : always_refused world_denied.
Proof.
  intros log req. exists (failure 401 (lit "Unauthorized")).
  split; [|discriminate]. unfold world_denied, scripted. cbn [endpoint].
  destruct (length log); reflexivity.
Qed.

Lemma refused_run_looks_complete_witness :
  exists out w',
    returns (generate_script None (lit "cats") 60 (lit "Friendly") (lit "TikTok")
               (lit "English")) world_denied out w'
    /\ length (sent w') = 3%nat.
Proof.
  destruct (refused_run_looks_complete None (lit "cats") 60 (lit "Friendly")
              (lit "TikTok") (lit "English") world_denied world_denied_refuses)
    as (r1 & r2 & r3 & state & w' & _ & Hlen & _ & _ & _ & _ & Hout).
  eexists. exists w'. split; [exact Hout | exact Hlen].
Defined.

(** ** Missing keys *)

Ltac raise_key k :=
  exists k; split; [vm_compute; tauto|]; split; [discriminate|];
  split; [assumption | reflexivity].

Lemma outline_prompt_raises (state : gmap string pyval) (w : world)
    (e : exn) (w' : world) :
  outline_prompt state w = (inl e, w') ->
  exists k : string, In k fields /\ k <> "platform"%string
            /\ state !! k = None /\ e = KeyError (repr_str (lit k)).
Proof.
  unfold outline_prompt, getitem, mbind, M_bind, mret, M_ret, mthrow, M_throw.
  destruct (state !! "duration") eqn:H1;
    [|intros [= <- _]; raise_key "duration"%string].
  destruct (state !! "topic") eqn:H2;
    [|intros [= <- _]; raise_key "topic"%string].
  destruct (state !! "language") eqn:H3;
    [|intros [= <- _]; raise_key "language"%string].
  destruct (state !! "tone") eqn:H4;
    [|intros [= <- _]; raise_key "tone"%string].
  discriminate.
Qed.

Lemma script_prompt_raises (state : gmap string pyval) (w : world)
    (e : exn) (w' : world) :
  script_prompt state w = (inl e, w') ->
  exists k : string, In k fields /\ k <> "platform"%string
            /\ state !! k = None /\ e = KeyError (repr_str (lit k)).
Proof.
  unfold script_prompt, getitem, mbind, M_bind, mret, M_ret, mthrow, M_throw.
  destruct (state !! "script_outline") eqn:H0;
    [|intros [= <- _]; raise_key "script_outline"%string].
  destruct (state !! "duration") eqn:H1;
    [|intros [= <- _]; raise_key "duration"%string].
  destruct (state !! "topic") eqn:H2;
    [|intros [= <- _]; raise_key "topic"%string].
  destruct (state !! "language") eqn:H3;
    [|intros [= <- _]; raise_key "language"%string].
  destruct (state !! "tone") eqn:H4;
    [|intros [= <- _]; raise_key "tone"%string].
  discriminate.
Qed.

Lemma hashtag_prompt_raises (state : gmap string pyval) (w : world)
    (e : exn) (w' : world) :
  hashtag_prompt state w = (inl e, w') ->
  exists k : string, In k fields /\ k <> "platform"%string
            /\ state !! k = None /\ e = KeyError (repr_str (lit k)).
Proof.
  unfold hashtag_prompt, getitem, mbind, M_bind, mret, M_ret, mthrow, M_throw.
  destruct (state !! "final_script") eqn:H0;
    [|intros [= <- _]; raise_key "final_script"%string].
  destruct (state !! "topic") eqn:H2;
    [|intros [= <- _]; raise_key "topic"%string].
  destruct (state !! "language") eqn:H3;
    [|intros [= <- _]; raise_key "language"%string].
  discriminate.
Qed.

(** X6: the only exception a node lets through is the [KeyError] of a key
    its prompt reads with a subscript and the dict lacks; its text is the
    quoted key, no request has been posted, and [platform] is never the
    key. *)
Theorem node_raises_only_KeyError (key : option pystr) (s : step)
    (state : gmap string pyval) (w : world) (e : exn) (w' : world) :
  In s (steps key) ->
  raises (run_node s state) w e w' ->
  w' = w
  /\ exists k : string,
       In k fields /\ k <> "platform"%string /\ state !! k = None
       /\ e = KeyError (squote ++ lit k ++ squote).
Proof.
  intros Hs Hra. unfold raises in Hra.
  destruct (node_cases key s state w Hs)
    as [(_ & _ & Hrun)|[(e' & Hp & _ & Hrun)|(p & _ & _ & Hrun)]];
    rewrite Hrun in Hra; try discriminate.
  injection Hra as -> ->. split; [reflexivity|].
  destruct Hs as [<-|[<-|[<-|[]]]]; cbn [build_prompt step_outline step_script
                                          step_hashtags] in Hp.
  - exact (outline_prompt_raises _ _ _ _ Hp).
  - exact (script_prompt_raises _ _ _ _ Hp).
  - exact (hashtag_prompt_raises _ _ _ _ Hp).
Qed.

Lemma node_raises_only_KeyError_witness :
  raises (create_outline_node None cats_no_topic_key) world_ok
    (KeyError (lit "'topic'")) world_ok
  /\ exists k : string,
       cats_no_topic_key !! k = None
       /\ KeyError (lit "'topic'") = KeyError (squote ++ lit k ++ squote).
Proof.
  assert (Hra : raises (create_outline_node None cats_no_topic_key) world_ok
                  (KeyError (lit "'topic'")) world_ok) by reflexivity.
  split; [exact Hra|].
  destruct (node_raises_only_KeyError None (step_outline None) cats_no_topic_key
              world_ok _ _ (or_introl eq_refl) Hra)
    as (_ & k & _ & _ & Hk & He).
  exists k. split; [exact Hk | exact He].
Defined.

Lemma getitem_required (state : gmap string pyval) (k : string) (w : world) :
  has_required state -> In k fields -> k <> "platform"%string ->
  getitem state k w = (inr (val state k), w).
Proof.
  intros H Hin Hk. destruct (H k Hin Hk) as [v Hv].
  rewrite (val_lookup _ _ _ Hv). apply getitem_run, Hv.
Qed.

Ltac step_required H :=
  rewrite bind_run, (getitem_required _ _ _ H)
    by first [vm_compute; tauto | discriminate].

Lemma get_absent (state : gmap string pyval) (k : string) (d : pyval) :
  state !! k = None -> get state k d = d.
Proof. intros H. unfold get. rewrite H. reflexivity. Qed.

(** X7: [platform] is the one optional key: on a dict that has every other
    key and no [platform], the prompts are built with "Any" for the
    platform (and "social media" in the hashtags request line), and every
    node returns. *)
Theorem platform_key_optional (key : option pystr) (state : gmap string pyval)
    (w : world) :
  has_required state ->
  state !! "platform" = None ->
  returns (outline_prompt state) w
    (outline_text (val state "duration") (val state "topic")
       (val state "language") (val state "tone") (VStr (lit "Any"))) w
  /\ returns (script_prompt state) w
       (script_text (val state "script_outline") (val state "duration")
          (val state "topic") (val state "language") (val state "tone")
          (VStr (lit "Any")) (val state "duration")) w
  /\ returns (hashtag_prompt state) w
       (hashtag_text (val state "final_script") (VStr (lit "social media"))
          (val state "topic") (VStr (lit "Any")) (val state "language")) w
  /\ forall s, In s (steps key) ->
       exists state' w', returns (run_node s state) w state' w'.
Proof.
  intros H Hp. unfold returns.
  assert (H1 : outline_prompt state w
               = (inr (outline_text (val state "duration") (val state "topic")
                         (val state "language") (val state "tone")
                         (VStr (lit "Any"))), w)).
  { unfold outline_prompt. do 4 step_required H.
    rewrite get_absent by exact Hp. reflexivity. }
  assert (H2 : script_prompt state w
               = (inr (script_text (val state "script_outline")
                         (val state "duration") (val state "topic")
                         (val state "language") (val state "tone")
                         (VStr (lit "Any")) (val state "duration")), w)).
  { unfold script_prompt. do 6 step_required H.
    rewrite get_absent by exact Hp. reflexivity. }
  assert (H3 : hashtag_prompt state w
               = (inr (hashtag_text (val state "final_script")
                         (VStr (lit "social media")) (val state "topic")
                         (VStr (lit "Any")) (val state "language")), w)).
  { unfold hashtag_prompt. do 3 step_required H.
    rewrite !get_absent by exact Hp. reflexivity. }
  split; [exact H1|]. split; [exact H2|]. split; [exact H3|].
  intros s Hs.
  destruct (node_cases key s state w Hs)
    as [(_ & _ & Hrun)|[(e & Hpr & _ & _)|(p & _ & _ & Hrun)]].
  - eauto.
  - destruct Hs as [<-|[<-|[<-|[]]]];
      cbn [build_prompt step_outline step_script step_hashtags] in Hpr;
      congruence.
  - eauto.
Qed.

Lemma cats_no_platform_key_required : has_required cats_no_platform_key.
Proof.
  intros k Hk Hne. vm_compute in Hk.
  repeat (destruct Hk as [<-|Hk];
          [first [eexists; reflexivity | destruct Hne; reflexivity]|]).
  destruct Hk.
Qed.

Lemma platform_key_optional_witness :
  returns (outline_prompt cats_no_platform_key) world_ok
    (outline_text (VInt 60) (VStr (lit "cats")) (VStr (lit "English"))
       (VStr (lit "Friendly")) (VStr (lit "Any"))) world_ok.
Proof.
  exact (proj1 (platform_key_optional None cats_no_platform_key world_ok
                  cats_no_platform_key_required eq_refl)).
Defined.

(** ** What a run shows *)

Lemma with_error_val (state : gmap string pyval) (prefix : string) (e : exn) :
  val (with_error state prefix e) "error" = VStr (lit prefix ++ str_exn e).
Proof. apply val_lookup, lookup_insert_eq. Qed.

Lemma failed_run_shown (key : option pystr) (topic : pystr) (duration : Z)
    (tone platform language : pystr) (w : world)
    (state : gmap string pyval) (prefix : string) (e : exn) (w' : world) :
  prefix <> ""%string -> is_ScriptState state ->
  invoke key (initial_state topic duration tone platform language) w
    = (inr (with_error state prefix e), w') ->
  generate_script key topic duration tone platform language w
    = (inr (error_line (lit prefix ++ str_exn e)), w').
Proof.
  intros Hp Hst Hrun.
  rewrite (generate_script_run key _ _ _ _ _ _ _ _ Hrun)
    by (apply insert_is_ScriptState, Hst).
  rewrite with_error_truthy by exact Hp. rewrite with_error_val. reflexivity.
Qed.

(** X8: the text [generate_script] returns names the step that failed: a
    fault in the first, second or third call gives the cross mark followed
    by "Error creating outline: ", "Error generating script: " or "Error
    generating hashtags: " and the exception text; the texts the earlier
    calls returned are not shown. *)
Theorem fault_is_reported (key : option pystr) (topic : pystr) (duration : Z)
    (tone platform language : pystr) (w : world) :
  let init := initial_state topic duration tone platform language in
  (forall e w1,
     raises (call_groq_api key (prompt1 init)) w e w1 ->
     returns (generate_script key topic duration tone platform language) w
       (cross_mark ++ lit " Error creating outline: " ++ str_exn e) w1)
  /\ (forall t1 w1 e w2,
        returns (call_groq_api key (prompt1 init)) w t1 w1 ->
        raises (call_groq_api key (prompt2 (with_outline init t1))) w1 e w2 ->
        returns (generate_script key topic duration tone platform language) w
          (cross_mark ++ lit " Error generating script: " ++ str_exn e) w2)
  /\ (forall t1 w1 t2 w2 e w3,
        returns (call_groq_api key (prompt1 init)) w t1 w1 ->
        returns (call_groq_api key (prompt2 (with_outline init t1))) w1 t2 w2 ->
        raises (call_groq_api key
                  (prompt3 (with_script (with_outline init t1) t2))) w2 e w3 ->
        returns (generate_script key topic duration tone platform language) w
          (cross_mark ++ lit " Error generating hashtags: " ++ str_exn e) w3).
Proof.
  intros init.
  pose proof (initial_is_ScriptState topic duration tone platform language) as H.
  pose proof (initial_no_error topic duration tone platform language) as He.
  fold init in H, He. unfold returns.
  split; [|split].
  - intros e w1 H1.
    rewrite (failed_run_shown key _ _ _ _ _ _ init "Error creating outline: " e w1);
      [reflexivity | discriminate | exact H |].
    exact (invoke_fault1 key _ _ _ _ H H1).
  - intros t1 w1 e w2 H1 H2.
    rewrite (failed_run_shown key _ _ _ _ _ _ (with_outline init t1)
               "Error generating script: " e w2);
      [reflexivity | discriminate | apply insert_is_ScriptState, H |].
    exact (invoke_fault2 key _ _ _ _ _ _ H He H1 H2).
  - intros t1 w1 t2 w2 e w3 H1 H2 H3.
    rewrite (failed_run_shown key _ _ _ _ _ _
               (with_script (with_outline init t1) t2)
               "Error generating hashtags: " e w3);
      [reflexivity | discriminate | do 2 apply insert_is_ScriptState; exact H |].
    exact (invoke_fault3 key _ _ _ _ _ _ _ _ H He H1 H2 H3).
Qed.

Lemma fault_is_reported_witness :
  returns (generate_script None (lit "cats") 60 (lit "Friendly") (lit "TikTok")
             (lit "English")) world_fault2
    (cross_mark ++ lit " Error generating script: connection refused")
    (after (after world_fault2 (groq_request None (prompt1 cats)))
           (groq_request None (prompt2 (with_outline cats (lit "OUTLINE"))))).
Proof.
  destruct (fault_is_reported None (lit "cats") 60 (lit "Friendly") (lit "TikTok")
              (lit "English") world_fault2) as (_ & Hstep2 & _).
  apply (Hstep2 (lit "OUTLINE")
           (after world_fault2 (groq_request None (prompt1 cats)))
           (ConnectionError "connection refused")); reflexivity.
Defined.

(** X9: when the three calls are answered with status 200 and readable
    bodies, and the third content is not blank, [generate_script] returns
    the three stripped contents under the three headings, and nothing
    else: heading, newline, text, with one empty line between the
    sections. *)
Theorem answered_run_renders (key : option pystr) (topic : pystr)
    (duration : Z) (tone platform language : pystr) (w : world)
    (r1 r2 r3 : response) (c1 c2 c3 : pystr) :
  let init := initial_state topic duration tone platform language in
  let q1 := groq_request key (prompt1 init) in
  let q2 := groq_request key (prompt2 (with_outline init (strip c1))) in
  let q3 := groq_request key
              (prompt3 (with_script (with_outline init (strip c1)) (strip c2))) in
  endpoint w (sent w) q1 = Responded r1 ->
  endpoint w (sent w ++ [q1]) q2 = Responded r2 ->
  endpoint w (sent w ++ [q1; q2]) q3 = Responded r3 ->
  status_code r1 = 200 -> status_code r2 = 200 -> status_code r3 = 200 ->
  first_choice_content r1 c1 ->
  first_choice_content r2 c2 ->
  first_choice_content r3 c3 ->
  blank c3 = false ->
  returns (generate_script key topic duration tone platform language) w
    (sections (strip c1) (strip c2) (strip c3))
    (after (after (after w q1) q2) q3).
Proof.
  intros init q1 q2 q3 Hr1 Hr2 Hr3 S1 S2 S3 F1 F2 F3 Hb.
  pose proof (initial_is_ScriptState topic duration tone platform language) as H.
  pose proof (initial_no_error topic duration tone platform language) as He.
  fold init in H, He.
  assert (H1 : returns (call_groq_api key (prompt1 init)) w (strip c1) (after w q1))
    by exact (proj1 (call_groq_api_result key _ w r1 Hr1) S1 c1 F1).
  assert (H2 : returns (call_groq_api key (prompt2 (with_outline init (strip c1))))
                 (after w q1) (strip c2) (after (after w q1) q2))
    by exact (proj1 (call_groq_api_result key _ (after w q1) r2 Hr2) S2 c2 F2).
  assert (Hr3' : endpoint (after (after w q1) q2)
                   (sent (after (after w q1) q2)) q3 = Responded r3)
    by (rewrite after_sent2; exact Hr3).
  assert (H3 : returns (call_groq_api key
                          (prompt3 (with_script (with_outline init (strip c1))
                                      (strip c2))))
                 (after (after w q1) q2) (strip c3)
                 (after (after (after w q1) q2) q3))
    by exact (proj1 (call_groq_api_result key _ _ r3 Hr3') S3 c3 F3).
  pose proof (invoke_ok key _ _ _ _ _ _ _ _ H He H1 H2 H3) as Hrun.
  unfold returns.
  rewrite (generate_script_run key _ _ _ _ _ _ _ _ Hrun)
    by (do 3 apply insert_is_ScriptState; exact H).
  assert (Hs : sections_stripped (strip c1) (strip c2) (strip c3)
               = sections (strip c1) (strip c2) (strip c3)).
  { apply sections_trimmed; [apply strip_trimmed|].
    intros Hn. apply strip_nil_iff in Hn. congruence. }
  rewrite <- Hs. reflexivity.
Qed.

Lemma answered_run_renders_witness :
  returns (generate_script None (lit "cats") 60 (lit "Friendly") []
             (lit "English")) world_stub
    (sections (lit "OUTLINE") (lit "SCRIPT") (lit "TAGS"))
    (snd (invoke None no_platform world_stub)).
Proof.
  apply (answered_run_renders None (lit "cats") 60 (lit "Friendly") []
           (lit "English") world_stub
           (completion (lit "OUTLINE")) (completion (lit "SCRIPT"))
           (completion (lit "TAGS"))
           (lit "OUTLINE") (lit "SCRIPT") (lit "TAGS"));
    try reflexivity; repeat eexists; reflexivity.
Defined.

(** X10: in a run whose three calls return, the three requests posted
    carry, in this order, the outline prompt made of the form's values, the
    script prompt with the first call's text as the outline, and the
    hashtags prompt with the second call's text as the script; the platform
    is embedded as given (the defaults "Any" and "social media" are not
    used), and the state ends with the three texts and no error. *)
Theorem clean_run_chains (key : option pystr) (topic : pystr) (duration : Z)
    (tone platform language : pystr) (w : world)
    (t1 t2 t3 : pystr) (w1 w2 w3 : world) :
  let p1 := run_prompt1 topic duration tone platform language in
  let p2 := run_prompt2 topic duration tone platform language t1 in
  let p3 := run_prompt3 topic platform language t2 in
  returns (call_groq_api key p1) w t1 w1 ->
  returns (call_groq_api key p2) w1 t2 w2 ->
  returns (call_groq_api key p3) w2 t3 w3 ->
  exists state,
    returns (invoke key (initial_state topic duration tone platform language))
      w state w3
    /\ sent w3 = sent w ++ [groq_request key p1; groq_request key p2;
                            groq_request key p3]
    /\ field_is state "script_outline" t1
    /\ field_is state "final_script" t2
    /\ field_is state "hashtags" t3
    /\ field_empty state "error"
    /\ (forall k, In k input_fields ->
          state !! k = initial_state topic duration tone platform language !! k).
Proof.
  intros p1 p2 p3 H1 H2 H3.
  pose proof (initial_is_ScriptState topic duration tone platform language) as H.
  pose proof (initial_no_error topic duration tone platform language) as He.
  eexists. split.
  - exact (invoke_ok key _ _ _ _ _ _ _ _ H He H1 H2 H3).
  - apply call_returns in H1 as [_ ->]. apply call_returns in H2 as [_ ->].
    apply call_returns in H3 as [_ ->].
    split; [apply after_sent3|].
    split; [reflexivity|]. split; [reflexivity|]. split; [reflexivity|].
    split; [reflexivity|].
    intros k Hk. vm_compute in Hk.
    repeat (destruct Hk as [<-|Hk]; [reflexivity|]). destruct Hk.
Qed.

Lemma clean_run_chains_witness :
  exists state,
    returns (invoke None no_platform) world_stub state
      (snd (invoke None no_platform world_stub))
    /\ field_is state "hashtags" (lit "TAGS")
    /\ field_empty state "error".
Proof.
  destruct (clean_run_chains None (lit "cats") 60 (lit "Friendly") []
              (lit "English") world_stub
              (lit "OUTLINE") (lit "SCRIPT") (lit "TAGS")
              (after world_stub
                 (groq_request None
                    (run_prompt1 (lit "cats") 60 (lit "Friendly") [] (lit "English"))))
              (after (after world_stub
                        (groq_request None
                           (run_prompt1 (lit "cats") 60 (lit "Friendly") []
                              (lit "English"))))
                 (groq_request None
                    (run_prompt2 (lit "cats") 60 (lit "Friendly") []
                       (lit "English") (lit "OUTLINE"))))
              (snd (invoke None no_platform world_stub))
              eq_refl eq_refl eq_refl)
    as (state & Hrun & _ & _ & _ & Hh & He & _).
  exists state. split; [exact Hrun|]. split; [exact Hh | exact He].
Defined.

(** ** Nodes and the error field *)




(** X12: a node never removes a key and adds at most its own content key
    or [error]: the keys of the state it returns are those of its input,
    possibly with these two; on a state with every key of [ScriptState]
    the set of keys does not change. *)
Theorem steps_keep_keys (key : option pystr) (s : step)
    (state : gmap string pyval) (w : world) (state' : gmap string pyval)
    (w' : world) :
  In s (steps key) ->
  returns (run_node s state) w state' w' ->
  dom state ⊆ dom state'
  /\ dom state' ⊆ dom state ∪ {[own_field s; "error"%string]}
  /\ (is_ScriptState state -> dom state' = dom state /\ is_ScriptState state').
Proof.
  intros Hs Hret. unfold returns in Hret.
  assert (Hown : In (own_field s) fields).
  { destruct Hs as [<-|[<-|[<-|[]]]]; vm_compute; tauto. }
  assert (Herr : In "error"%string fields) by (vm_compute; tauto).
  destruct (node_cases key s state w Hs)
    as [(_ & _ & Hrun)|[(e & _ & _ & Hrun)|(p & _ & _ & Hrun)]];
    rewrite Hrun in Hret; try discriminate; injection Hret as <- <-.
  - split; [reflexivity|]. split; [apply union_subseteq_l|]. auto.
  - destruct (client_result _) as [e|t]; cbn [settle]; rewrite dom_insert_L.
    + split; [apply union_subseteq_r|]. split.
      * apply union_least; [|apply union_subseteq_l].
        apply singleton_subseteq_l, elem_of_union_r, elem_of_union_r.
        apply elem_of_singleton. reflexivity.
      * intros H. split; [|apply insert_is_ScriptState, H].
        apply subseteq_union_1_L, singleton_subseteq_l, elem_of_dom, H, Herr.
    + split; [apply union_subseteq_r|]. split.
      * apply union_least; [|apply union_subseteq_l].
        apply singleton_subseteq_l, elem_of_union_r, elem_of_union_l.
        apply elem_of_singleton. reflexivity.
      * intros H. split; [|apply insert_is_ScriptState, H].
        apply subseteq_union_1_L, singleton_subseteq_l, elem_of_dom, H, Hown.
Qed.

Lemma steps_keep_keys_witness :
  returns (create_outline_node None cats) world_ok
    (with_outline cats (lit "Hello there"))
    (after world_ok (groq_request None (prompt1 cats)))
  /\ dom (with_outline cats (lit "Hello there")) = dom cats.
Proof.
  assert (Hret : returns (create_outline_node None cats) world_ok
                   (with_outline cats (lit "Hello there"))
                   (after world_ok (groq_request None (prompt1 cats))))
    by reflexivity.
  split; [exact Hret|].
  destruct (steps_keep_keys None (step_outline None) cats world_ok _ _
              (or_introl eq_refl) Hret) as (_ & _ & Hk).
  exact (proj1 (Hk (initial_is_ScriptState _ _ _ _ _))).
Defined.

(** ** The form, with a topic *)

(** X13: with a topic that is not blank the handler runs the pipeline (at
    least one request is posted) and shows the spinner text, the
    subheader, the text [generate_script] returned and the success
    message, the last also when that text is the error line of a failed
    run; the handler itself never raises. *)
Theorem nonblank_topic_runs (key : option pystr) (topic : pystr) (duration : Z)
    (tone platform language : pystr) (w : world) :
  blank topic = false ->
  exists out w',
    returns (generate_script key topic duration tone platform language) w out w'
    /\ returns (on_submit key topic duration tone platform language) w
         [ st_spinner ([128260%N] ++ lit " Creating script outline...");
           st_subheader ([128203%N] ++ lit " Generated Content");
           st_markdown out;
           st_success ([9989%N]
             ++ lit " Script generated! Copy and use it for your next post.") ]
         w'
    /\ (length (sent w) < length (sent w'))%nat.
Proof.
  intros Hb.
  destruct (run_posts_one_to_three key topic duration tone platform language w)
    as (state & w' & new & Hrun & _ & Hsent & Hlen & _ & _).
  destruct (invoke_total key (initial_state topic duration tone platform language)
              w (initial_is_ScriptState _ _ _ _ _) (initial_no_error _ _ _ _ _))
    as (state0 & w0 & Hrun0 & Hst).
  unfold returns in Hrun. rewrite Hrun in Hrun0. injection Hrun0 as <- <-.
  pose proof (generate_script_run key _ _ _ _ _ _ _ _ Hrun Hst) as Hgs.
  eexists. exists w'. split; [exact Hgs|]. split.
  - unfold returns, on_submit.
    destruct (strip topic) eqn:Hs.
    + apply strip_nil_iff in Hs. congruence.
    + cbn [nonempty negb]. rewrite bind_run, Hgs. reflexivity.
  - rewrite Hsent, length_app. lia.
Qed.

Lemma nonblank_topic_runs_witness :
  exists out w',
    returns (on_submit None (lit "cats") 60 (lit "Friendly") (lit "TikTok")
               (lit "English")) world_down
      [ st_spinner ([128260%N] ++ lit " Creating script outline...");
        st_subheader ([128203%N] ++ lit " Generated Content");
        st_markdown out;
        st_success ([9989%N]
          ++ lit " Script generated! Copy and use it for your next post.") ]
      w'
    /\ (0 < length (sent w'))%nat.
Proof.
  destruct (nonblank_topic_runs None (lit "cats") 60 (lit "Friendly")
              (lit "TikTok") (lit "English") world_down eq_refl)
    as (out & w' & _ & Hsub & Hlen).
  exists out, w'. split; [exact Hsub | exact Hlen].
Defined.

(** X14: [generate_script] always returns a text, and it is one of two
    kinds: the three sections, or the cross mark followed by one of the
    three step prefixes and an exception text.  The "Workflow error" text
    of its own [except] branch is never produced, since no exception gets
    out of a run started from the form's values. *)
Theorem run_outcome_shown (key : option pystr) (topic : pystr) (duration : Z)
    (tone platform language : pystr) (w : world) :
  exists out w',
    returns (generate_script key topic duration tone platform language) w out w'
    /\ ((exists t1 t2 t3, out = sections_stripped t1 t2 t3)
        \/ (exists prefix e,
              In prefix [ "Error creating outline: ";
                          "Error generating script: ";
                          "Error generating hashtags: " ]%string
              /\ out = cross_mark ++ lit " " ++ lit prefix ++ str_exn e)).
Proof.
  set (init := initial_state topic duration tone platform language).
  pose proof (initial_is_ScriptState topic duration tone platform language) as H.
  pose proof (initial_no_error topic duration tone platform language) as He.
  fold init in H, He. unfold returns.
  destruct (run_cases key init w H He)
    as [(e & _ & Hrun)
       |(t1 & _ & [(e & _ & Hrun)
                  |(t2 & _ & [(e & _ & Hrun)|(t3 & _ & Hrun)])])].
  - do 2 eexists. split.
    + apply (failed_run_shown key _ _ _ _ _ _ init
               "Error creating outline: " e _);
        [discriminate | exact H | exact Hrun].
    + right. exists "Error creating outline: "%string, e.
      split; [vm_compute; tauto | reflexivity].
  - do 2 eexists. split.
    + apply (failed_run_shown key _ _ _ _ _ _ (with_outline init t1)
               "Error generating script: " e _);
        [discriminate | apply insert_is_ScriptState, H | exact Hrun].
    + right. exists "Error generating script: "%string, e.
      split; [vm_compute; tauto | reflexivity].
  - do 2 eexists. split.
    + apply (failed_run_shown key _ _ _ _ _ _
               (with_script (with_outline init t1) t2)
               "Error generating hashtags: " e _);
        [discriminate | do 2 apply insert_is_ScriptState; exact H | exact Hrun].
    + right. exists "Error generating hashtags: "%string, e.
      split; [vm_compute; tauto | reflexivity].
  - do 2 eexists. split.
    + rewrite (generate_script_run key _ _ _ _ _ _ _ _ Hrun)
        by (do 3 apply insert_is_ScriptState; exact H).
      reflexivity.
    + left. exists t1, t2, t3. reflexivity.
Qed.
